(** * exoplanets: the TEPCat ingestion script [scripts/parse.py]

    A shallow embedding of [fetch_source], [parse_csv], [parse_ascii] and
    [build_output], with the Python builtins they call, followed by the
    properties of the ingestion pipeline.

    Conventions of the embedding
    - a Python [str] is a [string]; its characters are the code points
      below 256;
    - a Python exception is a value of [exn], and fallible code runs in the
      error monad [result];
    - an [OrderedDict] is an association list in insertion order;
    - [float(...)], the clock, the network and the file system are not code
      of the script: they are the variables of the sections below. *)

From Stdlib Require Import String Ascii List ZArith Bool Lia.
Import ListNotations.

Open Scope list_scope.
Open Scope string_scope.

Set Warnings "-register-all".

(* ===================================================================== *)
(** ** Python exceptions and the error monad                              *)
(* ===================================================================== *)

Inductive exn : Type :=
| TypeError        (* wrong number of arguments to the namedtuple *)
| ValueError       (* float() on text that is no number *)
| AttributeError   (* getattr on a name the namedtuple lacks *)
| KeyError         (* d[k] on a missing key *)
| RuntimeError (status_code : Z)  (* raised by fetch_source *)
| SSLError         (* requests.exceptions.SSLError *)
| RequestError     (* any other exception of requests.get *)
| OSError.         (* open() failed *)

Inductive result (A : Type) : Type :=
| Ok (a : A)
| Raise (e : exn).

Arguments Ok {A} a.
Arguments Raise {A} e.

Definition bind {A B : Type} (m : result A) (k : A -> result B) : result B :=
  match m with
  | Ok a => k a
  | Raise e => Raise e
  end.

Notation "x <- m ;; k" := (bind m (fun x => k))
  (at level 61, m at next level, right associativity).

Definition is_ok {A : Type} (m : result A) : bool :=
  match m with Ok _ => true | Raise _ => false end.

(* ===================================================================== *)
(** ** The [str] methods the script calls                                 *)
(* ===================================================================== *)

Module PyStr.

(** [not s] on a string. *)
Definition is_empty (s : string) : bool :=
  match s with
  | EmptyString => true
  | String _ _ => false
  end.

(** [s.startswith(pre)] *)
Definition startswith (s pre : string) : bool := String.prefix pre s.

(** [c.isspace()] on the code points below 256: TAB, LF, VT, FF, CR,
    the four separators FS, GS, RS, US, the space, NEL and NBSP. *)
Definition isspace (c : ascii) : bool :=
  let n := nat_of_ascii c in
  (((9 <=? n) && (n <=? 13)) || ((28 <=? n) && (n <=? 32))
   || (n =? 133) || (n =? 160))%nat.

(** [s.split()]: the maximal runs of characters that are not white
    space, in order; [tok] is the run being read. *)
Fixpoint split_from (tok : string) (s : string) : list string :=
  match s with
  | EmptyString => if is_empty tok then [] else [tok]
  | String c s' =>
      if isspace c then
        if is_empty tok then split_from "" s' else tok :: split_from "" s'
      else split_from (tok ++ String c "") s'
  end.

Definition split (s : string) : list string := split_from "" s.

(** [s.split(sep)] for a one-character separator: every occurrence
    cuts, and empty pieces are kept ([''.split(sep)] is [['']]). *)
Fixpoint split_on_from (sep : ascii) (piece : string) (s : string)
  : list string :=
  match s with
  | EmptyString => [piece]
  | String c s' =>
      if Ascii.eqb c sep then piece :: split_on_from sep "" s'
      else split_on_from sep (piece ++ String c "") s'
  end.

Definition split_on (sep : ascii) (s : string) : list string :=
  split_on_from sep "" s.

(** [s.replace(old, new)] for a non-empty [old]: the occurrences of
    [old] are replaced from left to right, without overlap.  [skip]
    counts the characters of a matched occurrence still to be passed. *)
Fixpoint replace_from (old new : string) (skip : nat) (s : string)
  : string :=
  match s with
  | EmptyString => EmptyString
  | String c s' =>
      match skip with
      | S k => replace_from old new k s'
      | O =>
          if String.prefix old s
          then new ++ replace_from old new (String.length old - 1) s'
          else String c (replace_from old new 0 s')
      end
  end.

(** With an empty [old] Python puts [new] before every character and
    at the end. *)
Fixpoint intersperse (new : string) (s : string) : string :=
  match s with
  | EmptyString => new
  | String c s' => new ++ String c (intersperse new s')
  end.

Definition replace (s old new : string) : string :=
  if is_empty old then intersperse new s else replace_from old new 0 s.

(** [template.format(a1, ..., an)] for templates whose only replacement
    fields are [{}]: each [{}] takes the next argument.  (Python raises
    IndexError when the arguments run out; every template of the script
    gets as many arguments as it has fields, and the model puts nothing
    there.) *)
Fixpoint format (template : string) (args : list string) : string :=
  match template with
  | EmptyString => EmptyString
  | String c rest =>
      match rest with
      | String d rest' =>
          if (Ascii.eqb c "{" && Ascii.eqb d "}")%bool then
            match args with
            | a :: args' => a ++ format rest' args'
            | [] => format rest' []
            end
          else String c (format rest args)
      | EmptyString => String c EmptyString
      end
  end.

End PyStr.

(* ===================================================================== *)
(** ** OrderedDict                                                        *)
(* ===================================================================== *)

Module OrderedDict.

Section Ops.
Context {V : Type}.

Definition t := list (string * V).

(** [d[k] = v]: an existing key keeps its place, a new key goes last. *)
Fixpoint set (d : t) (k : string) (v : V) : t :=
  match d with
  | [] => [(k, v)]
  | (k', v') :: d' =>
      if String.eqb k' k then (k, v) :: d' else (k', v') :: set d' k v
  end.

(** [d.get(k)] *)
Fixpoint get (d : t) (k : string) : option V :=
  match d with
  | [] => None
  | (k', v') :: d' => if String.eqb k' k then Some v' else get d' k
  end.

Definition keys (d : t) : list string := map fst d.
End Ops.

Arguments t : clear implicits.

End OrderedDict.

(* ===================================================================== *)
(** ** Module constants of parse.py                                       *)
(* ===================================================================== *)

Definition CSV_URL := "https://www.astro.keele.ac.uk/jkt/tepcat/allplanets-csv.csv".
Definition ASCII_URL := "https://www.astro.keele.ac.uk/jkt/tepcat/allplanets-ascii.txt".
Definition HUMAN_URL := "https://www.astro.keele.ac.uk/jkt/tepcat/planets/{}.html".
Definition ARXIV_URL := "https://arxiv.org/abs/{}".
Definition FALLBACK_URL := "http://adsabs.harvard.edu/abs/{}".
Definition HELP_URL := "https://www.astro.keele.ac.uk/jkt/tepcat/html-quantities.html".

(** The field names of the namedtuple [Properties], in column order. *)
Definition props : list string :=
  [ "system";
    "Teff"; "Teff_erru"; "Teff_errd"; "FeH"; "FeH_erru"; "FeH_errd";
    "Msun"; "Msun_erru"; "Msun_errd"; "Rsun"; "Rsun_erru"; "Rsun_errd";
    "cgs"; "cgs_erru"; "cgs_errd"; "rhosun"; "rhosun_erru"; "rhosun_errd";
    "Porb";
    "ecc"; "ecc_erru"; "ecc_errd"; "a_AU"; "a_AU_erru"; "a_AU_errd";
    "Mjup"; "Mjup_erru"; "Mjup_errd"; "Rjup"; "Rjup_erru"; "Rjup_errd";
    "ms2"; "ms2_erru"; "ms2_errd"; "rhoJup"; "rhoJup_erru"; "rhoJup_errd";
    "Teqk"; "Teqk_erru"; "Teqk_errd";
    "d_ref"; "r_ref" ].

(** A [Properties] instance: the positional values, one per name. *)
Definition namedtuple := list string.

(** [Properties(a1, ..., an)]: TypeError unless there is one argument per name. *)
Definition Properties (args : list string) : result namedtuple :=
  if Nat.eqb (List.length args) (List.length props) then Ok args
  else Raise TypeError.

Fixpoint index_of (name : string) (names : list string) : option nat :=
  match names with
  | [] => None
  | n :: names' =>
      if String.eqb n name then Some 0
      else option_map S (index_of name names')
  end.

(** [getattr(x, name)], also written [x.name]. *)
Definition getattr (x : namedtuple) (name : string) : result string :=
  match index_of name props with
  | Some i =>
      match nth_error x i with
      | Some v => Ok v
      | None => Raise AttributeError
      end
  | None => Raise AttributeError
  end.

(* ===================================================================== *)
(** ** The record parser                                                  *)
(* ===================================================================== *)

Section Parser.

(** Python's floats and [float(s)] on a string; [None] is ValueError. *)
Variable float : Type.
Variable py_float : string -> option float.

(** The values the script builds and hands to [json.dumps]. *)
Inductive value : Type :=
| VStr (s : string)
| VFloat (f : float)
| VInt (n : Z)
| VDict (d : list (string * value))
| VList (l : list value).

Definition odict := OrderedDict.t value.

(** [v[k]] read on a value, [None] when [v] is no dict or lacks [k]. *)
Definition getitem (v : value) (k : string) : option value :=
  match v with
  | VDict d => OrderedDict.get d k
  | _ => None
  end.

(** [v[k1][k2]...] *)
Fixpoint getpath (v : value) (path : list string) : option value :=
  match path with
  | [] => Some v
  | k :: path' =>
      match getitem v k with
      | Some v' => getpath v' path'
      | None => None
      end
  end.

(** [row[k1][k2] = v]: the dict stored under [k1] is updated in place. *)
Definition set_in (row : odict) (k1 k2 : string) (v : value)
  : result odict :=
  match OrderedDict.get row k1 with
  | Some (VDict d) =>
      Ok (OrderedDict.set row k1 (VDict (OrderedDict.set d k2 v)))
  | Some _ => Raise TypeError
  | None => Raise KeyError
  end.

Definition to_float (s : string) : result float :=
  match py_float s with
  | Some f => Ok f
  | None => Raise ValueError
  end.

(** The closure [get_data] of [parse_ascii]; [x] is the row of the
    current iteration, which the closure reads when it is called. *)
Definition get_data (skip_err_margins : bool) (x : namedtuple)
           (param : string) : result value :=
  if skip_err_margins then
    s <- getattr x param ;;
    f <- to_float s ;;
    Ok (VFloat f)
  else
    let ret : odict := [] in
    s <- getattr x param ;;
    f <- to_float s ;;
    let ret := OrderedDict.set ret "value" (VFloat f) in
    s <- getattr x (PyStr.format "{}_{}" [param; "erru"]) ;;
    f <- to_float s ;;
    let ret := OrderedDict.set ret "error_plus" (VFloat f) in
    s <- getattr x (PyStr.format "{}_{}" [param; "errd"]) ;;
    f <- to_float s ;;
    let ret := OrderedDict.set ret "error_minus" (VFloat f) in
    Ok (VDict ret).

(** The test at the head of the loop: the line is skipped. *)
Definition skipped (line : string) : bool :=
  PyStr.startswith line "#" || PyStr.is_empty line.

(** The body of the [for] loop of [parse_ascii] for a line that is not
    skipped: from [x = Properties(...)] to the finished [row]. *)
Definition parse_row (skip_err_margins : bool) (line : string)
  : result value :=
  let get_data := get_data skip_err_margins in
  x <- Properties (PyStr.split line) ;;
  let row : odict := [] in
  system <- getattr x "system" ;;
  let row := OrderedDict.set row "system" (VStr system) in
  Porb <- getattr x "Porb" ;;
  period <- to_float Porb ;;
  let row := OrderedDict.set row "period" (VFloat period) in
  v <- get_data x "ecc" ;;
  let row := OrderedDict.set row "eccentricity" v in
  v <- get_data x "a_AU" ;;
  let row := OrderedDict.set row "semimajor_AU" v in

  let row := OrderedDict.set row "stellar_properties" (VDict []) in
  v <- get_data x "Teff" ;;
  row <- set_in row "stellar_properties" "temp_k" v ;;
  v <- get_data x "FeH" ;;
  row <- set_in row "stellar_properties" "metal_log" v ;;
  v <- get_data x "Msun" ;;
  row <- set_in row "stellar_properties" "mass_sol" v ;;
  v <- get_data x "Rsun" ;;
  row <- set_in row "stellar_properties" "radius_sol" v ;;
  v <- get_data x "cgs" ;;
  row <- set_in row "stellar_properties" "gravity_log_cgs" v ;;
  v <- get_data x "rhosun" ;;
  row <- set_in row "stellar_properties" "density_sol" v ;;

  let row := OrderedDict.set row "planetary_properties" (VDict []) in
  v <- get_data x "Mjup" ;;
  row <- set_in row "planetary_properties" "mass_jup" v ;;
  v <- get_data x "Rjup" ;;
  row <- set_in row "planetary_properties" "radius_jup" v ;;
  v <- get_data x "ms2" ;;
  row <- set_in row "planetary_properties" "gravity" v ;;
  v <- get_data x "rhoJup" ;;
  row <- set_in row "planetary_properties" "density_jup" v ;;
  v <- get_data x "Teqk" ;;
  row <- set_in row "planetary_properties" "temp_eq_k" v ;;

  let row := OrderedDict.set row "references" (VDict []) in
  system <- getattr x "system" ;;
  row <- set_in row "references" "human_url"
           (VStr (PyStr.format HUMAN_URL [system])) ;;
  d_ref <- getattr x "d_ref" ;;
  row <-
    (if PyStr.startswith d_ref "arXiv" then
       set_in row "references" "discovery"
              (VStr (PyStr.format ARXIV_URL [d_ref]))
     else
       set_in row "references" "discovery"
              (VStr (PyStr.replace (PyStr.format FALLBACK_URL [d_ref])
                                   "+" "&"))) ;;
  r_ref <- getattr x "r_ref" ;;
  row <-
    (if PyStr.startswith r_ref "arXiv" then
       set_in row "references" "recent"
              (VStr (PyStr.format ARXIV_URL [r_ref]))
     else
       set_in row "references" "recent"
              (VStr (PyStr.replace (PyStr.format FALLBACK_URL [r_ref])
                                   "+" "&"))) ;;
  Ok (VDict row).

(** The loop of [parse_ascii]; [ret] is the list built so far.  An
    exception leaves the function, and [ret] with it. *)
Fixpoint parse_ascii_loop (skip_err_margins : bool) (src : list string)
         (ret : list value) : result (list value) :=
  match src with
  | [] => Ok ret
  | line :: src' =>
      if skipped line then parse_ascii_loop skip_err_margins src' ret
      else
        row <- parse_row skip_err_margins line ;;
        parse_ascii_loop skip_err_margins src' (ret ++ [row])
  end.

Definition parse_ascii (src : list string) (skip_err_margins : bool)
  : result (list value) :=
  parse_ascii_loop skip_err_margins src [].

(** [src[1:]] is [tl src], also on the empty list. *)
Definition parse_csv (src : list string) (skip_err_margins : bool)
  : result (list value) :=
  let new_src := map (fun x => PyStr.replace x "," " ") (tl src) in
  parse_ascii new_src skip_err_margins.

(* =================================================================== *)
(** ** The output builder                                               *)
(* =================================================================== *)

(** The clock: [datetime.datetime], the rendering of one reading by
    ['{0:%Y-%b-%d %X}'.format], and [timegm] of its time tuple. *)
Variable datetime : Type.
Variable strftime : datetime -> string.
Variable timegm : datetime -> Z.

(** [now] is what [datetime.datetime.utcnow()] returns if it is called. *)
Definition build_output (now : datetime) (data : list value)
           (timestamp : bool) : value :=
  let ret : odict := [] in
  let ret :=
    if timestamp then
      let ret := OrderedDict.set ret "fetched_data_human_utc"
                                 (VStr (strftime now)) in
      OrderedDict.set ret "fetched_data_unix_utc" (VInt (timegm now))
    else
      let ret := OrderedDict.set ret "fetched_date_human"
                                 (VStr "unknown") in
      OrderedDict.set ret "fetched_date_unix" (VInt 0)
  in
  let ret := OrderedDict.set ret "units_info" (VStr HELP_URL) in
  let ret := OrderedDict.set ret "data" (VList data) in
  VDict ret.

End Parser.

Arguments VStr {float} s.
Arguments VFloat {float} f.
Arguments VInt {float} n.
Arguments VDict {float} d.
Arguments VList {float} l.
Arguments getitem {float} v k.
Arguments getpath {float} v path.
Arguments set_in {float} row k1 k2 v.
Arguments to_float {float} py_float s.
Arguments get_data {float} py_float skip_err_margins x param.
Arguments parse_row {float} py_float skip_err_margins line.
Arguments parse_ascii_loop {float} py_float skip_err_margins src ret.
Arguments parse_ascii {float} py_float src skip_err_margins.
Arguments parse_csv {float} py_float src skip_err_margins.
Arguments build_output {float datetime} strftime timegm now data timestamp.

(* ===================================================================== *)
(** ** The source fetcher                                                 *)
(* ===================================================================== *)

(** What one [requests.get] does. *)
Inductive get_outcome : Type :=
| GetSSLError
| GetFailure
| GetResponse (status_code : Z) (text : string).

(** What the fetcher does to the world, in order. *)
Inductive event : Type :=
| EvGet (url : string)
| EvPrint (msg : string)
| EvOpen (path : string).

Section Fetcher.

(** The network: the outcome of the [n]-th GET of the run, sent to a
    URL; the file system: the text of a file, [None] when [open]
    fails. *)
Variable requests_get : nat -> string -> get_outcome.
Variable read_file : string -> option string.

Definition newline : ascii := ascii_of_nat 10.

Definition fetch_source (web : bool) (URI : string)
  : list event * result (list string) :=
  if web then
    let '(trace, r) :=
      match requests_get 0 URI with
      | GetSSLError =>
          let retry := PyStr.replace URI "https" "http" in
          ([EvGet URI;
            EvPrint ("warning: couldn't verify TLS certificate. "
                     ++ "Using plain http as fallback...");
            EvGet retry],
           requests_get 1 retry)
      | r => ([EvGet URI], r)
      end in
    match r with
    | GetSSLError => (trace, Raise SSLError)
    | GetFailure => (trace, Raise RequestError)
    | GetResponse status_code text =>
        if negb (Z.eqb status_code 200)
        then (trace, Raise (RuntimeError status_code))
        else (trace, Ok (PyStr.split_on newline text))
    end
  else
    match read_file URI with
    | Some source => ([EvOpen URI], Ok (PyStr.split_on newline source))
    | None => ([EvOpen URI], Raise OSError)
    end.

(** The URLs requested, in order. *)
Definition requested (trace : list event) : list string :=
  flat_map (fun e => match e with EvGet u => [u] | _ => [] end) trace.

End Fetcher.

(* ===================================================================== *)
(** ** The command line program                                           *)
(* ===================================================================== *)

(** The choices of [--type]. *)
Inductive source_type : Type :=
| ascii_source
| csv_source.

(** The namespace [argparse] returns. *)
Record arguments : Type := {
  from_file : option string;
  type : source_type;
  skip_errors : bool;
  export : option string;
  quiet : bool
}.

(** What [main] does to the world, in order: the events of its fetch,
    a [print], a file written. *)
Inductive main_event : Type :=
| Fetching (e : event)
| Print (text : string)
| WriteFile (path text : string).

(** The truth value of an optional string: [None] and [''] are false. *)
Definition truthy (o : option string) : bool :=
  match o with
  | Some s => negb (PyStr.is_empty s)
  | None => false
  end.

Section Main.

Context {float datetime : Type}.
Variable py_float : string -> option float.
Variable strftime : datetime -> string.
Variable timegm : datetime -> Z.
Variable now : datetime.
Variable requests_get : nat -> string -> get_outcome.
Variable read_file : string -> option string.

(** [open(path, 'w')] succeeds; [json.dumps(out, indent=4)]. *)
Variable writable : string -> bool.
Variable dumps : value float -> string.

Definition main (args : arguments) : list main_event * result unit :=
  let '(trace, data) :=
    match type args with
    | ascii_source =>
        let '(trace, source) :=
          match from_file args with
          | None => fetch_source requests_get read_file true ASCII_URL
          | Some path => fetch_source requests_get read_file false path
          end in
        (trace,
         source <- source ;; parse_ascii py_float source (skip_errors args))
    | csv_source =>
        let '(trace, source) :=
          match from_file args with
          | None => fetch_source requests_get read_file true CSV_URL
          | Some path => fetch_source requests_get read_file false path
          end in
        (trace,
         source <- source ;; parse_csv py_float source (skip_errors args))
    end in
  let trace := map Fetching trace in
  match data with
  | Raise e => (trace, Raise e)
  | Ok data =>
      let out := build_output strftime timegm now data
                              (negb (truthy (from_file args))) in
      let formatted := dumps out in
      let trace :=
        if negb (quiet args) then (trace ++ [Print formatted])%list
        else trace in
      match export args with
      | Some path =>
          if truthy (export args) then
            if writable path then
              ((trace ++
                [WriteFile path formatted;
                 Print (PyStr.format "written to file: {}" [path])])%list,
               Ok tt)
            else (trace, Raise OSError)
          else (trace, Ok tt)
      | None => (trace, Ok tt)
      end
  end.

End Main.

(* ===================================================================== *)
(** ** The analysis script [playground/analyse.py]                        *)
(* ===================================================================== *)

Module Analyse.

Section Projection.

Context {float : Type}.

(** [x[k]] for a string [k]: KeyError on a dict without [k], TypeError
    on anything that is no dict. *)
Definition subscript (x : value float) (k : string)
  : result (value float) :=
  match x with
  | VDict d =>
      match OrderedDict.get d k with
      | Some v => Ok v
      | None => Raise KeyError
      end
  | _ => Raise TypeError
  end.

(** [[x['period'] for x in data]] over the elements of a list. *)
Fixpoint periods (data : list (value float)) : result (list (value float)) :=
  match data with
  | [] => Ok []
  | x :: data' =>
      p <- subscript x "period" ;;
      ps <- periods data' ;;
      Ok (p :: ps)
  end.

(** The start of [main] and the list the three plots draw:
    [data = meta['data']], then [[x['period'] for x in data]]; [meta] is
    the decoded file.  Iterating over a dict gives its keys and over a
    string its characters, which have no ['period']; a number cannot be
    iterated over. *)
Definition relevant (meta : value float) : result (list (value float)) :=
  data <- subscript meta "data" ;;
  match data with
  | VList l => periods l
  | VDict [] => Ok []
  | VStr EmptyString => Ok []
  | _ => Raise TypeError
  end.

End Projection.

End Analyse.

(* ===================================================================== *)
(** ** A sample run                                                       *)
(* ===================================================================== *)

(** Concrete stand-ins for the variables above, and a catalogue row, for
    the examples: a reader of plain decimal numerals in place of
    [float], whose values are a mantissa and a count of decimals. *)
Module Sample.

Definition decimal : Type := (Z * nat)%type.

Definition digit (c : ascii) : option Z :=
  let n := nat_of_ascii c in
  if ((48 <=? n) && (n <=? 57))%nat then Some (Z.of_nat (n - 48)) else None.

(** [m] is the mantissa read so far, [k] the decimals read so far,
    [nd] the digits read so far. *)
Fixpoint read (point : bool) (m : Z) (k nd : nat) (s : string)
  : option decimal :=
  match s with
  | EmptyString => if (0 <? nd)%nat then Some (m, k) else None
  | String c s' =>
      match digit c with
      | Some d =>
          read point (10 * m + d)%Z (if point then S k else k) (S nd) s'
      | None =>
          if (Ascii.eqb c "." && negb point)%bool
          then read true m k nd s'
          else None
      end
  end.

Definition read_decimal (s : string) : option decimal :=
  match s with
  | String c s' =>
      if Ascii.eqb c "-" then
        match read false 0 0 0 s' with
        | Some (m, k) => Some (Z.opp m, k)
        | None => None
        end
      else read false 0 0 0 s
  | EmptyString => None
  end.

(** One row in the layout of the catalogue's ASCII file. *)
Definition row : string :=
  "WASP-012 6360 140 140 0.33 0.14 0.17 1.434 0.110 0.090 "
  ++ "1.657 0.046 0.044 4.157 0.013 0.011 0.315 0.007 0.007 "
  ++ "1.0914203 0.0 0.0 0.0 0.02340 0.00056 0.00050 "
  ++ "1.470 0.076 0.069 1.900 0.057 0.055 10.09 0.29 0.28 "
  ++ "0.214 0.019 0.019 2580 58 62 "
  ++ "2004ApJ...600L..67B+2005 arXiv:1004.1809".

Definition comment : string := "# system Teff err+ err- ...".

(** The fields of [row], and the same row in the CSV layout. *)
Definition fields : list string := PyStr.split row.

(** Network scripts: the first GET fails on the certificate, the
    second one answers. *)
Definition tls_fails_once (n : nat) (url : string) : get_outcome :=
  match n with
  | O => GetSSLError
  | S _ => GetResponse 200 "# empty catalogue"
  end.

Definition no_files (path : string) : option string := None.

(** A source as the fetcher hands it over: a comment, the row, and the
    empty piece after the last line break; and its record, with the
    error margins skipped. *)
Definition source : list string := [comment; row; ""].

Definition record : value decimal :=
  Eval vm_compute in
    match parse_ascii read_decimal source true with
    | Ok (r :: _) => r
    | _ => VList []
    end.

(** The row with two fields too many. *)
Definition long_row : string := row ++ " 0.5 0.5".

(** A catalogue mirror whose path also spells the secure scheme. *)
Definition mirror_url : string := "https://example.org/https/planets.txt".

(** A clock reading in seconds since the epoch, and its rendering. *)
Definition now : Z := 1488619800.
Definition render (t : Z) : string := "2017-Mar-04 09:30:00".
Definition seconds (t : Z) : Z := t.

End Sample.

(* ===================================================================== *)
(** ** Vocabulary of the properties                                       *)
(* ===================================================================== *)

(** A line that is not empty and does not start with [#]. *)
Definition data_line (line : string) : bool :=
  match line with
  | EmptyString => false
  | String c _ => negb (Ascii.eqb c "#")
  end.

Definition data_lines (src : list string) : list string :=
  filter data_line src.

(** Every [a] of [s] turned into [b], character by character. *)
Fixpoint subst_char (a b : ascii) (s : string) : string :=
  match s with
  | EmptyString => EmptyString
  | String c s' => String (if Ascii.eqb c a then b else c) (subst_char a b s')
  end.

Fixpoint has_char (a : ascii) (s : string) : bool :=
  match s with
  | EmptyString => false
  | String c s' => Ascii.eqb c a || has_char a s'
  end.

(** [old] occurs somewhere in [s]. *)
Fixpoint occurs (old : string) (s : string) : bool :=
  String.prefix old s ||
  match s with
  | EmptyString => false
  | String _ s' => occurs old s'
  end.

(** The columns that hold numbers: all but the system name and the two
    reference codes. *)
Definition numeric_columns : list string := firstn 40 (tl props).

(** The measurements of a record: where each one sits in the record and
    the column its central value comes from. *)
Definition measurement_fields : list (list string * string) :=
  [ (["eccentricity"], "ecc");
    (["semimajor_AU"], "a_AU");
    (["stellar_properties"; "temp_k"], "Teff");
    (["stellar_properties"; "metal_log"], "FeH");
    (["stellar_properties"; "mass_sol"], "Msun");
    (["stellar_properties"; "radius_sol"], "Rsun");
    (["stellar_properties"; "gravity_log_cgs"], "cgs");
    (["stellar_properties"; "density_sol"], "rhosun");
    (["planetary_properties"; "mass_jup"], "Mjup");
    (["planetary_properties"; "radius_jup"], "Rjup");
    (["planetary_properties"; "gravity"], "ms2");
    (["planetary_properties"; "density_jup"], "rhoJup");
    (["planetary_properties"; "temp_eq_k"], "Teqk") ].

(** The two citation URLs of a record: the key under [references] and
    the column of the bibliographic code. *)
Definition reference_fields : list (string * string) :=
  [ ("discovery", "d_ref"); ("recent", "r_ref") ].

(** Each data line of a source with the record at its position in the
    records of a run. *)
Definition rows_with_records {float : Type} (src : list string)
           (recs : list (value float)) : list (string * value float) :=
  combine (data_lines src) recs.

(** Membership in a list of names, decided. *)
Definition mem (name : string) (names : list string) : bool :=
  existsb (String.eqb name) names.

(** The three-key object of a measurement with its error margins. *)
Definition triple {float : Type} (v up down : float) : value float :=
  VDict [("value", VFloat v); ("error_plus", VFloat up);
         ("error_minus", VFloat down)].

(** A row all of whose numeric columns [float] accepts. *)
Definition well_formed {float : Type} (py_float : string -> option float)
           (x : namedtuple) : Prop :=
  forall name s, In name numeric_columns -> getattr x name = Ok s ->
                 py_float s <> None.

(** The columns read when the error margins are skipped: the period and
    the central value of each measurement ... *)
Definition central_columns : list string :=
  "Porb" :: map snd measurement_fields.

(** ... with the system name and the two reference codes. *)
Definition read_columns : list string :=
  ("system" :: central_columns ++ ["d_ref"; "r_ref"])%list.

(** A string of white space only. *)
Fixpoint all_space (s : string) : bool :=
  match s with
  | EmptyString => true
  | String c s' => PyStr.isspace c && all_space s'
  end.

Fixpoint has_space (s : string) : bool :=
  match s with
  | EmptyString => false
  | String c s' => PyStr.isspace c || has_space s'
  end.

(** A field as both layouts can carry it: not empty, without white space
    and without comma. *)
Definition plain_field (f : string) : bool :=
  negb (PyStr.is_empty f) && negb (has_space f) && negb (has_char "," f).

(** The keys of a value that is a dict, in order. *)
Definition keys_of {float : Type} (v : value float) : list string :=
  match v with
  | VDict d => OrderedDict.keys d
  | _ => []
  end.

(** The URL a reference code is rendered to. *)
Definition reference_url (code : string) : string :=
  if PyStr.startswith code "arXiv"
  then "https://arxiv.org/abs/" ++ code
  else "http://adsabs.harvard.edu/abs/" ++ subst_char "+" "&" code.

(** The text a fetch ends on: the file's, or the body of the answer to
    the last request when its status is 200. *)
Definition fetched_text (requests_get : nat -> string -> get_outcome)
           (read_file : string -> option string)
           (web : bool) (URI : string) : option string :=
  if web then
    match requests_get 0 URI with
    | GetResponse 200 text => Some text
    | GetSSLError =>
        match requests_get 1 (PyStr.replace URI "https" "http") with
        | GetResponse 200 text => Some text
        | _ => None
        end
    | _ => None
    end
  else read_file URI.

(** The columns [float] is applied to in each mode. *)
Definition columns_read (skip_err_margins : bool) : list string :=
  if skip_err_margins then central_columns else numeric_columns.

(** [float] accepts the columns [cols] of the row [x]. *)
Definition numeric_on {float : Type} (py_float : string -> option float)
           (x : namedtuple) (cols : list string) : Prop :=
  forall name s, In name cols -> getattr x name = Ok s ->
                 py_float s <> None.

(** The record of a row, given its system name, its period, its
    measurements by column and its two reference codes. *)
Definition record_of {float : Type} (system : string) (period : float)
           (m : string -> value float) (d_ref r_ref : string)
  : value float :=
  VDict
    [ ("system", VStr system);
      ("period", VFloat period);
      ("eccentricity", m "ecc");
      ("semimajor_AU", m "a_AU");
      ("stellar_properties",
       VDict [ ("temp_k", m "Teff"); ("metal_log", m "FeH");
               ("mass_sol", m "Msun"); ("radius_sol", m "Rsun");
               ("gravity_log_cgs", m "cgs"); ("density_sol", m "rhosun") ]);
      ("planetary_properties",
       VDict [ ("mass_jup", m "Mjup"); ("radius_jup", m "Rjup");
               ("gravity", m "ms2"); ("density_jup", m "rhoJup");
               ("temp_eq_k", m "Teqk") ]);
      ("references",
       VDict [ ("human_url",
                VStr ("https://www.astro.keele.ac.uk/jkt/tepcat/planets/"
                      ++ system ++ ".html"));
               ("discovery", VStr (reference_url d_ref));
               ("recent", VStr (reference_url r_ref)) ]) ].

(** A record with error margins and a record without them that hold the
    same row: the same system, period and references, and for each
    measurement the bare float of the one is the [value] of the other. *)
Definition same_central_values {float : Type} (full bare : value float)
  : Prop :=
  getitem bare "system" = getitem full "system" /\
  getitem bare "period" = getitem full "period" /\
  getitem bare "references" = getitem full "references" /\
  forall path col, In (path, col) measurement_fields ->
    exists f, getpath bare path = Some (VFloat f) /\
              getpath full (path ++ ["value"])%list = Some (VFloat f).

(** The fetch [main] performs for its arguments, and the parse of what
    it fetched. *)
Definition fetch_of (requests_get : nat -> string -> get_outcome)
           (read_file : string -> option string) (args : arguments)
  : list event * result (list string) :=
  match from_file args with
  | None =>
      fetch_source requests_get read_file true
                   match type args with
                   | ascii_source => ASCII_URL
                   | csv_source => CSV_URL
                   end
  | Some path => fetch_source requests_get read_file false path
  end.

Definition parsed_of {float : Type} (py_float : string -> option float)
           (requests_get : nat -> string -> get_outcome)
           (read_file : string -> option string) (args : arguments)
  : result (list (value float)) :=
  source <- snd (fetch_of requests_get read_file args) ;;
  match type args with
  | ascii_source => parse_ascii py_float source (skip_errors args)
  | csv_source => parse_csv py_float source (skip_errors args)
  end.

(** The warning of the fetcher. *)
Definition TLS_WARNING : string :=
  "warning: couldn't verify TLS certificate. Using plain http as fallback...".

(** What a fetch prints. *)
Definition fetch_prints (trace : list event) : list string :=
  flat_map (fun e => match e with EvPrint msg => [msg] | _ => [] end) trace.

(** Everything a run of [main] prints on the standard output, in order:
    the prints of its fetch and its own. *)
Definition stdout (trace : list main_event) : list string :=
  flat_map (fun e => match e with
                     | Print text => [text]
                     | Fetching (EvPrint msg) => [msg]
                     | _ => []
                     end) trace.

(** The files a run of [main] writes, with their text. *)
Definition files_written (trace : list main_event)
  : list (string * string) :=
  flat_map (fun e => match e with
                     | WriteFile path text => [(path, text)]
                     | _ => []
                     end) trace.

(** The fetch of [main] meets a certificate failure and retries. *)
Definition retried (requests_get : nat -> string -> get_outcome)
           (args : arguments) : bool :=
  match from_file args with
  | None =>
      match requests_get 0 match type args with
                           | ascii_source => ASCII_URL
                           | csv_source => CSV_URL
                           end with
      | GetSSLError => true
      | _ => false
      end
  | Some _ => false
  end.


(** The network requests among the events of [main]. *)
Definition network (trace : list main_event) : list string :=
  flat_map (fun e => match e with
                     | Fetching (EvGet url) => [url]
                     | _ => []
                     end) trace.

(** Sample data for the properties of the whole program. *)
Module Demo.

(** The sample row with its error columns made unreadable. *)
Definition no_margins_row : string :=
  "WASP-012 6360 - - 0.33 - - 1.434 - - "
  ++ "1.657 - - 4.157 - - 0.315 - - "
  ++ "1.0914203 0.0 - - 0.02340 - - "
  ++ "1.470 - - 1.900 - - 10.09 - - "
  ++ "0.214 - - 2580 - - "
  ++ "2004ApJ...600L..67B+2005 arXiv:1004.1809".

(** The sample row with a period that is no number. *)
Definition bad_period_row : string :=
  "WASP-012 6360 140 140 0.33 0.14 0.17 1.434 0.110 0.090 "
  ++ "1.657 0.046 0.044 4.157 0.013 0.011 0.315 0.007 0.007 "
  ++ "unknown 0.0 0.0 0.0 0.02340 0.00056 0.00050 "
  ++ "1.470 0.076 0.069 1.900 0.057 0.055 10.09 0.29 0.28 "
  ++ "0.214 0.019 0.019 2580 58 62 "
  ++ "2004ApJ...600L..67B+2005 arXiv:1004.1809".

(** A catalogue file: a comment, the sample row, a final line break. *)
Definition text : string :=
  Sample.comment ++ String newline Sample.row ++ String newline "".

Definition disk (path : string) : option string :=
  if String.eqb path "tepcat.txt" then Some text else None.

Definition offline (n : nat) (url : string) : get_outcome := GetFailure.

Definition online (n : nat) (url : string) : get_outcome :=
  GetResponse 200 text.

Definition not_found (n : nat) (url : string) : get_outcome :=
  GetResponse 404 "Not Found".

(** A stand-in for [json.dumps]: it only tells the two envelopes apart. *)
Definition dumps (v : value Sample.decimal) : string :=
  match getitem v "fetched_data_human_utc" with
  | Some (VStr t) => "stamped " ++ t
  | _ => "not stamped"
  end.

Definition any_path (path : string) : bool := true.

(** The records of the sample source with their error margins. *)
Definition full_records : list (value Sample.decimal) :=
  Eval vm_compute in
    match parse_ascii Sample.read_decimal Sample.source false with
    | Ok recs => recs
    | Raise _ => []
    end.

(** The sample row in an aligned layout: leading blanks, fields three
    blanks apart, a tab at the end. *)
Definition aligned_row : string :=
  "  " ++ String.concat "   " Sample.fields ++ String (ascii_of_nat 9) "".

(** Networks whose first answer fails on the certificate. *)
Definition retry_online (n : nat) (url : string) : get_outcome :=
  match n with
  | O => GetSSLError
  | S _ => GetResponse 200 text
  end.

Definition retry_not_found (n : nat) (url : string) : get_outcome :=
  match n with
  | O => GetSSLError
  | S _ => GetResponse 404 "Not Found"
  end.

Definition quiet_remote_run : arguments :=
  {| from_file := None; type := ascii_source;
     skip_errors := true; export := None; quiet := true |}.

(** A line that holds a carriage return only. *)
Definition cr_line : string := String (ascii_of_nat 13) "".

Definition local_run : arguments :=
  {| from_file := Some "tepcat.txt"; type := ascii_source;
     skip_errors := true; export := Some "export.txt"; quiet := false |}.

Definition remote_run : arguments :=
  {| from_file := None; type := ascii_source;
     skip_errors := true; export := None; quiet := false |}.

Definition missing_run : arguments :=
  {| from_file := Some "nowhere.txt"; type := csv_source;
     skip_errors := false; export := Some "export.txt"; quiet := false |}.

End Demo.

(* ===================================================================== *)
(** ** Facts about the [str] model                                        *)
(* ===================================================================== *)

Lemma bind_ok {A B : Type} (m : result A) (k : A -> result B) (b : B) :
  bind m k = Ok b -> exists a, m = Ok a /\ k a = Ok b.
Proof.
  destruct m as [a|e]; simpl; intros H; [exists a; auto | discriminate].
Qed.

Lemma Ok_inj {A : Type} (a b : A) : Ok a = Ok b -> a = b.
Proof. congruence. Qed.

Lemma append_empty_r (s : string) : s ++ "" = s.
Proof. induction s as [|c s IH]; simpl; [reflexivity | now rewrite IH]. Qed.

Lemma append_assoc (s t u : string) : (s ++ t) ++ u = s ++ t ++ u.
Proof. induction s as [|c s IH]; simpl; [reflexivity | now rewrite IH]. Qed.

Lemma prefix_single (a c : ascii) (s : string) :
  String.prefix (String a "") (String c s) = Ascii.eqb c a.
Proof.
  simpl. destruct (ascii_dec a c) as [->|Hne].
  - rewrite Ascii.eqb_refl. now destruct s.
  - symmetry. apply Ascii.eqb_neq. congruence.
Qed.

(** Replacing a one-character pattern by one character is [subst_char]. *)
Lemma replace_single (a b : ascii) (s : string) :
  PyStr.replace s (String a "") (String b "") = subst_char a b s.
Proof.
  unfold PyStr.replace. simpl PyStr.is_empty. cbv iota.
  induction s as [|c s IH]; [reflexivity|].
  cbn [PyStr.replace_from subst_char]. rewrite prefix_single.
  destruct (Ascii.eqb c a); simpl; now rewrite IH.
Qed.

Lemma subst_char_app (a b : ascii) (s t : string) :
  subst_char a b (s ++ t) = subst_char a b s ++ subst_char a b t.
Proof. induction s as [|c s IH]; simpl; [reflexivity | now rewrite IH]. Qed.

Lemma subst_char_absent (a b : ascii) (s : string) :
  has_char a s = false -> subst_char a b s = s.
Proof.
  induction s as [|c s IH]; simpl; [reflexivity|].
  intros H. apply orb_false_iff in H as [Hc Hs]. now rewrite Hc, IH.
Qed.

Lemma subst_char_clears (a b : ascii) (s : string) :
  a <> b -> has_char a (subst_char a b s) = false.
Proof.
  intros Hab. induction s as [|c s IH]; simpl; [reflexivity|].
  rewrite IH, orb_false_r. destruct (Ascii.eqb c a) eqn:E; [|exact E].
  apply Ascii.eqb_neq. congruence.
Qed.

Lemma subst_char_length (a b : ascii) (s : string) :
  String.length (subst_char a b s) = String.length s.
Proof. induction s as [|c s IH]; simpl; [reflexivity | now rewrite IH]. Qed.

(** Joining comma-free fields with commas and replacing the commas by
    spaces is joining them with spaces. *)
Lemma subst_comma_concat (fields : list string) :
  forallb (fun f => negb (has_char "," f)) fields = true ->
  subst_char "," " " (String.concat "," fields) = String.concat " " fields.
Proof.
  induction fields as [|f fs IH]; [reflexivity|].
  cbn [forallb]. intros H. apply andb_true_iff in H as [Hf Hfs].
  apply negb_true_iff in Hf. specialize (IH Hfs).
  destruct fs as [|g fs].
  - simpl. now apply subst_char_absent.
  - change (String.concat "," (f :: g :: fs))
      with (f ++ "," ++ String.concat "," (g :: fs)).
    change (String.concat " " (f :: g :: fs))
      with (f ++ " " ++ String.concat " " (g :: fs)).
    rewrite !subst_char_app, IH, (subst_char_absent _ _ f Hf). reflexivity.
Qed.

(** A pattern that does not occur is not replaced. *)
Lemma replace_from_absent (old new s : string) :
  occurs old s = false -> PyStr.replace_from old new 0 s = s.
Proof.
  induction s as [|c s IH]; [reflexivity|].
  cbn [occurs]. intros H. apply orb_false_iff in H as [Hp Hs].
  cbn [PyStr.replace_from]. rewrite Hp, (IH Hs). reflexivity.
Qed.

(** The model on the behaviour of the Python methods. *)
Example split_drops_white_space :
  PyStr.split ("  WASP-1   6160" ++ String (ascii_of_nat 9) "1.24 ")
  = ["WASP-1"; "6160"; "1.24"].
Proof. reflexivity. Qed.

Example split_blank_line : PyStr.split "   " = [].
Proof. reflexivity. Qed.

Example split_on_keeps_empty_pieces :
  PyStr.split_on "," "a,,b," = ["a"; ""; "b"; ""].
Proof. reflexivity. Qed.

Example replace_left_to_right : PyStr.replace "aaaaa" "aa" "b" = "bba".
Proof. reflexivity. Qed.

Example replace_commas : PyStr.replace "a,b,,c" "," " " = "a b  c".
Proof. reflexivity. Qed.

Example format_error_column :
  PyStr.format "{}_{}" ["ecc"; "erru"] = "ecc_erru".
Proof. reflexivity. Qed.

Example sample_run :
  parse_ascii Sample.read_decimal Sample.source true = Ok [Sample.record].
Proof. vm_compute. reflexivity. Qed.

Example sample_period :
  getitem Sample.record "period" = Some (VFloat (10914203%Z, 7)).
Proof. reflexivity. Qed.

Lemma skipped_data_line (line : string) :
  skipped line = negb (data_line line).
Proof.
  unfold skipped, PyStr.startswith. destruct line as [|c s]; [reflexivity|].
  rewrite prefix_single. simpl. now rewrite orb_false_r, negb_involutive.
Qed.

Lemma props_length : List.length props = 43.
Proof. reflexivity. Qed.

(* ===================================================================== *)
(** ** The parsing loop                                                   *)
(* ===================================================================== *)

Lemma Forall2_combine {A B : Type} (P : A -> B -> Prop) (l : list A)
      (rs : list B) (x : A) (y : B) :
  Forall2 P l rs -> In (x, y) (combine l rs) -> P x y.
Proof.
  induction 1 as [|x' y' l rs Hxy _ IH]; intros Hin; [contradiction|].
  destruct Hin as [E|Hin]; [congruence | auto].
Qed.

Lemma Forall2_combine_r {A B : Type} (P : A -> B -> Prop) (l : list A)
      (rs : list B) (y : B) :
  Forall2 P l rs -> In y rs -> exists x, In (x, y) (combine l rs).
Proof.
  induction 1 as [|x' y' l rs Hxy _ IH]; intros Hin; [contradiction|].
  destruct Hin as [<-|Hin].
  - exists x'. now left.
  - destruct (IH Hin) as (x & Hx). exists x. now right.
Qed.

Section LoopFacts.

Context {float : Type} (py_float : string -> option float).

(** A successful loop appended one record per data line, in the order
    of the lines. *)
Lemma parse_ascii_loop_ok (skip : bool) (src : list string) :
  forall ret recs,
    parse_ascii_loop py_float skip src ret = Ok recs ->
    exists rows,
      recs = (ret ++ rows)%list /\
      Forall2 (fun line r => parse_row py_float skip line = Ok r)
              (data_lines src) rows.
Proof.
  induction src as [|line src IH]; intros ret recs H; simpl in H.
  - injection H as <-. exists []. split; [now rewrite app_nil_r | constructor].
  - rewrite skipped_data_line in H. unfold data_lines. cbn [filter].
    destruct (data_line line); simpl in H.
    + apply bind_ok in H as (row & Hrow & H).
      apply IH in H as (rows & -> & Hrows).
      exists (row :: rows). split.
      * now rewrite <- app_assoc.
      * now constructor.
    + now apply IH.
Qed.

(** Conversely, when every data line parses the loop returns the
    records of the lines. *)
Lemma parse_ascii_loop_complete (skip : bool) (src : list string) :
  forall ret rows,
    Forall2 (fun line r => parse_row py_float skip line = Ok r)
            (data_lines src) rows ->
    parse_ascii_loop py_float skip src ret = Ok (ret ++ rows)%list.
Proof.
  induction src as [|line src IH]; intros ret rows H; simpl.
  - inversion H; subst. now rewrite app_nil_r.
  - rewrite skipped_data_line. unfold data_lines in H. cbn [filter] in H.
    destruct (data_line line); simpl.
    + inversion H as [|? row ? rows' Hrow Hrest]; subst.
      rewrite Hrow. simpl. rewrite (IH _ _ Hrest).
      now rewrite <- app_assoc.
    + now apply IH.
Qed.

(** A data line that does not parse makes the whole run raise. *)
Lemma parse_ascii_loop_raises (skip : bool) (src : list string)
      (line : string) :
  In line src -> data_line line = true ->
  is_ok (parse_row py_float skip line) = false ->
  forall ret, is_ok (parse_ascii_loop py_float skip src ret) = false.
Proof.
  intros Hin Hdata Hbad.
  induction src as [|l src IH]; intros ret; [contradiction|].
  simpl. rewrite skipped_data_line.
  destruct Hin as [->|Hin].
  - rewrite Hdata. simpl.
    destruct (parse_row py_float skip line); [discriminate | reflexivity].
  - destruct (data_line l); simpl; [|now apply IH].
    destruct (parse_row py_float skip l); simpl; [now apply IH | reflexivity].
Qed.

(** A record of a successful run is the record of the data line at its
    position. *)
Lemma parse_ascii_record_row (skip : bool) (src : list string)
      (recs : list (value float)) (line : string) (r : value float) :
  parse_ascii py_float src skip = Ok recs ->
  In (line, r) (rows_with_records src recs) ->
  In line src /\ data_line line = true /\
  parse_row py_float skip line = Ok r.
Proof.
  intros H Hin. apply parse_ascii_loop_ok in H as (rows & -> & Hrows).
  cbn [app] in Hin. unfold rows_with_records in Hin.
  pose proof (in_combine_l _ _ _ _ Hin) as Hl.
  apply filter_In in Hl as [? ?].
  repeat split; try assumption.
  exact (Forall2_combine _ _ _ _ _ Hrows Hin).
Qed.

(** Every record of a successful run sits at the position of a data
    line. *)
Lemma every_record_has_its_row (skip : bool) (src : list string)
      (recs : list (value float)) (r : value float) :
  parse_ascii py_float src skip = Ok recs -> In r recs ->
  exists line, In (line, r) (rows_with_records src recs).
Proof.
  intros H Hin. apply parse_ascii_loop_ok in H as (rows & -> & Hrows).
  cbn [app] in *. exact (Forall2_combine_r _ _ _ _ Hrows Hin).
Qed.

End LoopFacts.

(* ===================================================================== *)
(** ** The URL templates                                                  *)
(* ===================================================================== *)

Lemma format_human_url (system : string) :
  PyStr.format HUMAN_URL [system]
  = "https://www.astro.keele.ac.uk/jkt/tepcat/planets/" ++ system ++ ".html".
Proof. reflexivity. Qed.

Lemma format_arxiv_url (code : string) :
  PyStr.format ARXIV_URL [code] = "https://arxiv.org/abs/" ++ code.
Proof.
  change (PyStr.format ARXIV_URL [code])
    with ("https://arxiv.org/abs/" ++ (code ++ "")).
  now rewrite append_empty_r.
Qed.

Lemma format_fallback_url (code : string) :
  PyStr.replace (PyStr.format FALLBACK_URL [code]) "+" "&"
  = "http://adsabs.harvard.edu/abs/" ++ subst_char "+" "&" code.
Proof.
  change (PyStr.format FALLBACK_URL [code])
    with ("http://adsabs.harvard.edu/abs/" ++ (code ++ "")).
  rewrite append_empty_r, replace_single, subst_char_app. reflexivity.
Qed.

(* ===================================================================== *)
(** ** The namedtuple                                                     *)
(* ===================================================================== *)

Lemma bind_raise {A B : Type} (m : result A) (k : A -> result B) (e : exn) :
  bind m k = Raise e ->
  m = Raise e \/ exists a, m = Ok a /\ k a = Raise e.
Proof.
  destruct m as [a|e']; simpl; intros H; [right; exists a; auto | left; congruence].
Qed.

Lemma mem_In (name : string) (names : list string) :
  mem name names = true -> In name names.
Proof.
  unfold mem. intros H. apply existsb_exists in H as (n & Hn & E).
  apply String.eqb_eq in E. now subst.
Qed.

Lemma index_of_In (name : string) (names : list string) :
  In name names ->
  exists i, index_of name names = Some i /\ i < List.length names.
Proof.
  induction names as [|n names IH]; [contradiction|].
  intros Hin. simpl. destruct (String.eqb_spec n name) as [E|E].
  - exists 0. split; [reflexivity | simpl; lia].
  - destruct Hin as [Hin|Hin]; [contradiction|].
    destruct (IH Hin) as (i & -> & Hi). exists (S i). split; [reflexivity | simpl; lia].
Qed.

(** A namedtuple with one value per name has every attribute. *)
Lemma getattr_total (x : namedtuple) (name : string) :
  List.length x = 43 -> In name props -> exists s, getattr x name = Ok s.
Proof.
  intros Hlen Hin. unfold getattr.
  destruct (index_of_In _ _ Hin) as (i & -> & Hi).
  rewrite props_length, <- Hlen in Hi.
  apply nth_error_Some in Hi.
  destruct (nth_error x i) as [s|]; [eauto | contradiction].
Qed.

Lemma numeric_columns_props (name : string) :
  In name numeric_columns -> In name props.
Proof.
  assert (H : forallb (fun n => mem n props) numeric_columns = true)
    by reflexivity.
  intros Hin. apply mem_In. now apply (proj1 (forallb_forall _ _) H).
Qed.

(** A measurement's column and its two error columns hold numbers. *)
Lemma measurement_columns_numeric (path : list string) (col : string) :
  In (path, col) measurement_fields ->
  In col numeric_columns /\
  In (col ++ "_erru") numeric_columns /\
  In (col ++ "_errd") numeric_columns.
Proof.
  assert (H : forallb (fun pc =>
                         mem (snd pc) numeric_columns
                         && mem (snd pc ++ "_erru") numeric_columns
                         && mem (snd pc ++ "_errd") numeric_columns)
                      measurement_fields = true) by reflexivity.
  intros Hin. apply (proj1 (forallb_forall _ _) H) in Hin. cbn [snd] in Hin.
  apply andb_true_iff in Hin as [Hin Hd].
  apply andb_true_iff in Hin as [Hc Hu].
  auto using mem_In.
Qed.

(* ===================================================================== *)
(** ** One row                                                            *)
(* ===================================================================== *)

Section RowFacts.

Context {float : Type} (py_float : string -> option float).

Lemma to_float_ok (s : string) (f : float) :
  to_float py_float s = Ok f -> py_float s = Some f.
Proof.
  unfold to_float. destruct (py_float s); intros H; [|discriminate].
  now injection H as ->.
Qed.

Lemma Properties_ok (args : list string) (x : namedtuple) :
  Properties args = Ok x -> x = args /\ List.length args = 43.
Proof.
  unfold Properties. destruct (Nat.eqb_spec (List.length args) (List.length props)) as [E|E];
    intros H; [|discriminate].
  injection H as <-. now split.
Qed.

(** One step through a [bind] of a successful run. *)
Ltac bind_step H :=
  let a := fresh "a" in
  let Ha := fresh "Ha" in
  apply bind_ok in H; destruct H as (a & Ha & H); cbv beta in H;
  try match type of Ha with
      | (if ?c then _ else _) = _ => destruct c eqn:?
      end;
  try (cbn [set_in OrderedDict.get OrderedDict.set
            String.eqb Ascii.eqb Bool.eqb] in Ha;
       apply Ok_inj in Ha; subst a).

(** What a successful row holds outside its measurements. *)
Lemma parse_row_inv (skip : bool) (line : string) (r : value float) :
  parse_row py_float skip line = Ok r ->
  exists x system Porb period d_ref r_ref,
    Properties (PyStr.split line) = Ok x /\
    getattr x "system" = Ok system /\
    getattr x "Porb" = Ok Porb /\
    py_float Porb = Some period /\
    getattr x "d_ref" = Ok d_ref /\
    getattr x "r_ref" = Ok r_ref /\
    getitem r "system" = Some (VStr system) /\
    getitem r "period" = Some (VFloat period) /\
    getpath r ["references"; "human_url"]
    = Some (VStr (PyStr.format HUMAN_URL [system])) /\
    getpath r ["references"; "discovery"]
    = Some (VStr (if PyStr.startswith d_ref "arXiv"
                  then PyStr.format ARXIV_URL [d_ref]
                  else PyStr.replace (PyStr.format FALLBACK_URL [d_ref])
                                     "+" "&")) /\
    getpath r ["references"; "recent"]
    = Some (VStr (if PyStr.startswith r_ref "arXiv"
                  then PyStr.format ARXIV_URL [r_ref]
                  else PyStr.replace (PyStr.format FALLBACK_URL [r_ref])
                                     "+" "&")).
Proof.
  unfold parse_row. intros H. cbv zeta in H.
  do 34 bind_step H.
  all: apply Ok_inj in H; subst r.
  all: match goal with
       | Hx : Properties _ = Ok ?x,
         Hs : getattr ?x "system" = Ok ?s,
         Hs' : getattr ?x "system" = Ok ?s',
         Hp : getattr ?x "Porb" = Ok ?p,
         Hf : to_float _ ?p = Ok ?f,
         Hd : getattr ?x "d_ref" = Ok ?d,
         Hr : getattr ?x "r_ref" = Ok ?rr |- _ =>
           assert (s' = s) by congruence; subst s';
           apply to_float_ok in Hf;
           exists x, s, p, f, d, rr
       end.
  all: repeat (split; [eassumption || reflexivity |]).
  all: repeat match goal with
              | E : PyStr.startswith _ _ = _ |- _ => rewrite E; clear E
              end.
  all: repeat split; reflexivity.
Qed.


(** [float] of a numeric column of a well-formed row. *)
Lemma well_formed_number (x : namedtuple) (name : string) :
  List.length x = 43 -> well_formed py_float x ->
  In name numeric_columns ->
  exists s f, getattr x name = Ok s /\ py_float s = Some f.
Proof.
  intros Hlen Hwf Hin.
  destruct (getattr_total x name Hlen (numeric_columns_props _ Hin))
    as (s & Hs).
  specialize (Hwf name s Hin Hs).
  destruct (py_float s) as [f|] eqn:Hf; [eauto | contradiction].
Qed.

Lemma get_data_bare (x : namedtuple) (col s : string) (f : float) :
  getattr x col = Ok s -> py_float s = Some f ->
  get_data py_float true x col = Ok (VFloat f).
Proof.
  intros Hs Hf. unfold get_data, to_float. rewrite Hs. simpl.
  now rewrite Hf.
Qed.

Lemma get_data_full (x : namedtuple) (col s su sd : string)
      (f fu fd : float) :
  getattr x col = Ok s -> py_float s = Some f ->
  getattr x (col ++ "_erru") = Ok su -> py_float su = Some fu ->
  getattr x (col ++ "_errd") = Ok sd -> py_float sd = Some fd ->
  get_data py_float false x col = Ok (triple f fu fd).
Proof.
  intros Hs Hf Hsu Hfu Hsd Hfd. unfold get_data, to_float.
  change (PyStr.format "{}_{}" [col; "erru"]) with (col ++ "_erru").
  change (PyStr.format "{}_{}" [col; "errd"]) with (col ++ "_errd").
  cbv zeta. rewrite Hs. cbn [bind]. rewrite Hf. cbn [bind].
  rewrite Hsu. cbn [bind]. rewrite Hfu. cbn [bind].
  rewrite Hsd. cbn [bind]. rewrite Hfd. reflexivity.
Qed.

(** Well-formedness, checked column by column. *)
Lemma well_formed_check (x : namedtuple) :
  forallb (fun name =>
             match getattr x name with
             | Ok s => match py_float s with
                       | Some _ => true
                       | None => false
                       end
             | Raise _ => true
             end) numeric_columns = true ->
  well_formed py_float x.
Proof.
  intros H name s Hin Hs.
  apply (proj1 (forallb_forall _ _) H) in Hin. rewrite Hs in Hin.
  destruct (py_float s); [discriminate | discriminate Hin].
Qed.

(** The measurements of a well-formed row, in either mode. *)
Lemma get_data_well_formed (x : namedtuple) (path : list string)
      (col : string) :
  List.length x = 43 -> well_formed py_float x ->
  In (path, col) measurement_fields ->
  exists s su sd f fu fd,
    getattr x col = Ok s /\ py_float s = Some f /\
    getattr x (col ++ "_erru") = Ok su /\ py_float su = Some fu /\
    getattr x (col ++ "_errd") = Ok sd /\ py_float sd = Some fd /\
    get_data py_float true x col = Ok (VFloat f) /\
    get_data py_float false x col = Ok (triple f fu fd).
Proof.
  intros Hlen Hwf Hin.
  destruct (measurement_columns_numeric _ _ Hin) as (Hc & Hu & Hd).
  destruct (well_formed_number x _ Hlen Hwf Hc) as (s & f & Hs & Hf).
  destruct (well_formed_number x _ Hlen Hwf Hu) as (su & fu & Hsu & Hfu).
  destruct (well_formed_number x _ Hlen Hwf Hd) as (sd & fd & Hsd & Hfd).
  exists s, su, sd, f, fu, fd.
  repeat (split; [assumption|]). split.
  - now apply get_data_bare with s.
  - now apply get_data_full with s su sd.
Qed.

(** Where the measurements of a successful row sit. *)
Lemma parse_row_measurements (skip : bool) (line : string)
      (r : value float) :
  parse_row py_float skip line = Ok r ->
  exists x,
    Properties (PyStr.split line) = Ok x /\
    forall path col, In (path, col) measurement_fields ->
      exists v, get_data py_float skip x col = Ok v /\
                getpath r path = Some v.
Proof.
  unfold parse_row. intros H. cbv zeta in H.
  do 34 bind_step H.
  all: apply Ok_inj in H; subst r.
  all: match goal with
       | Hx : Properties _ = Ok ?x |- _ => exists x; split; [exact Hx|]
       end.
  all: intros path col Hin; cbn [measurement_fields In] in Hin.
  all: repeat (destruct Hin as [Hin|Hin];
               [apply pair_equal_spec in Hin as [<- <-];
                eexists; split; [eassumption | reflexivity] |]).
  all: contradiction.
Qed.


(** One step through a [bind] of a run that raises: the first operand
    cannot be what raised, so the run went on. *)
Ltac raise_step H total :=
  let a := fresh "a" in
  let Ha := fresh "Ha" in
  apply bind_raise in H; destruct H as [H | (a & Ha & H)];
  [ solve
      [ congruence
      | match type of H with
        | get_data _ _ _ ?c = Raise _ =>
            let v := fresh "v" in
            let Hv := fresh "Hv" in
            destruct (total c eq_refl) as (v & Hv); congruence
        | to_float _ ?s = Raise _ =>
            unfold to_float in H;
            match goal with
            | Hf : py_float ?s' = Some _ |- _ =>
                replace s with s' in H by congruence;
                rewrite Hf in H; discriminate
            end
        | (if ?c then _ else _) = Raise _ =>
            destruct c;
            cbn [set_in OrderedDict.get OrderedDict.set
                 String.eqb Ascii.eqb Bool.eqb] in H;
            discriminate
        | _ =>
            cbn [set_in OrderedDict.get OrderedDict.set
                 String.eqb Ascii.eqb Bool.eqb] in H;
            discriminate
        end ]
  | cbv beta in H;
    try match type of Ha with
        | (if ?c then _ else _) = _ => destruct c eqn:?
        end;
    try (cbn [set_in OrderedDict.get OrderedDict.set
              String.eqb Ascii.eqb Bool.eqb] in Ha;
         apply Ok_inj in Ha; subst a) ].

(** A row whose period and measurements can be read becomes a record.
    [cols] is what the mode reads of a measurement. *)
Lemma parse_row_reads (skip : bool) (line : string) (x : namedtuple)
      (Porb : string) (period : float) :
  Properties (PyStr.split line) = Ok x ->
  getattr x "Porb" = Ok Porb -> py_float Porb = Some period ->
  (forall col, mem col (map snd measurement_fields) = true ->
               exists v, get_data py_float skip x col = Ok v) ->
  exists r, parse_row py_float skip line = Ok r.
Proof.
  intros Hx HPorb Hperiod Hmeas.
  destruct (Properties_ok _ _ Hx) as [E Hlen]. rewrite <- E in Hlen.
  destruct (getattr_total x "system" Hlen (mem_In "system" props eq_refl))
    as (system & Hsystem).
  destruct (getattr_total x "d_ref" Hlen (mem_In "d_ref" props eq_refl))
    as (d_ref & Hd_ref).
  destruct (getattr_total x "r_ref" Hlen (mem_In "r_ref" props eq_refl))
    as (r_ref & Hr_ref).
  destruct (parse_row py_float skip line) as [r|e] eqn:H; [eauto|exfalso].
  unfold parse_row in H. cbv zeta in H.
  do 34 raise_step H Hmeas.
  all: discriminate.
Qed.

(** A well-formed row becomes a record in either mode. *)
Lemma parse_row_total (skip : bool) (line : string) (x : namedtuple) :
  Properties (PyStr.split line) = Ok x -> well_formed py_float x ->
  exists r, parse_row py_float skip line = Ok r.
Proof.
  intros Hx Hwf. destruct (Properties_ok _ _ Hx) as [E Hlen].
  rewrite <- E in Hlen.
  destruct (well_formed_number x "Porb" Hlen Hwf
              (mem_In "Porb" numeric_columns eq_refl))
    as (Porb & period & HPorb & Hperiod).
  apply (parse_row_reads skip line x Porb period Hx HPorb Hperiod).
  intros col Hcol. apply mem_In, in_map_iff in Hcol as ([path c] & <- & Hin).
  destruct (get_data_well_formed x path c Hlen Hwf Hin)
    as (s & su & sd & f & fu & fd & _ & _ & _ & _ & _ & _ & Hb & Hf).
  destruct skip; eauto.
Qed.

(** With the error margins skipped the error columns are not read:
    the central columns alone decide whether the row parses. *)
Lemma parse_row_skip_ignores_errors (line : string) (x : namedtuple) :
  Properties (PyStr.split line) = Ok x ->
  (forall name s, In name ("Porb" :: map snd measurement_fields) ->
                  getattr x name = Ok s -> py_float s <> None) ->
  exists r, parse_row py_float true line = Ok r.
Proof.
  intros Hx Hnum. destruct (Properties_ok _ _ Hx) as [E Hlen].
  rewrite <- E in Hlen.
  assert (Hread : forall name,
             mem name ("Porb" :: map snd measurement_fields) = true ->
             exists s f, getattr x name = Ok s /\ py_float s = Some f).
  { intros name Hname. apply mem_In in Hname.
    assert (Hp : In name props).
    { apply mem_In.
      assert (Hall : forallb (fun n => mem n props)
                             ("Porb" :: map snd measurement_fields) = true)
        by reflexivity.
      now apply (proj1 (forallb_forall _ _) Hall). }
    destruct (getattr_total x name Hlen Hp) as (s & Hs).
    specialize (Hnum name s Hname Hs).
    destruct (py_float s) as [f|] eqn:Hf; [eauto | contradiction]. }
  destruct (Hread "Porb" eq_refl) as (Porb & period & HPorb & Hperiod).
  apply (parse_row_reads true line x Porb period Hx HPorb Hperiod).
  intros col Hcol.
  assert (Hcol' : mem col ("Porb" :: map snd measurement_fields) = true).
  { unfold mem in *. cbn [existsb]. rewrite Hcol. apply orb_true_r. }
  destruct (Hread col Hcol') as (s & f & Hs & Hf).
  exists (VFloat f). now apply get_data_bare with s.
Qed.

End RowFacts.

(* ===================================================================== *)
(** ** The fetcher's retry                                                *)
(* ===================================================================== *)

(** Replacing in a URL that starts with the secure scheme and does not
    spell it again only changes the scheme. *)
Lemma replace_scheme_only (rest : string) :
  occurs "https" rest = false ->
  PyStr.replace ("https" ++ rest) "https" "http" = "http" ++ rest.
Proof.
  intros H. unfold PyStr.replace. cbn.
  replace (String.prefix "" rest) with true by (now destruct rest).
  now rewrite replace_from_absent.
Qed.

Section FetcherFacts.

Variable requests_get : nat -> string -> get_outcome.
Variable read_file : string -> option string.

(** After a certificate failure there is one more request, to the URI
    with [https] replaced by [http]; the failure of that one is final. *)
Lemma fetch_source_retry (URI : string) :
  requests_get 0 URI = GetSSLError ->
  requested (fst (fetch_source requests_get read_file true URI))
  = [URI; PyStr.replace URI "https" "http"].
Proof.
  intros H. unfold fetch_source. rewrite H.
  destruct (requests_get 1 (PyStr.replace URI "https" "http"))
    as [| |code text]; try reflexivity.
  destruct (negb (code =? 200)%Z); reflexivity.
Qed.

(** Without a certificate failure there is no second request. *)
Lemma fetch_source_no_retry (URI : string) :
  requests_get 0 URI <> GetSSLError ->
  requested (fst (fetch_source requests_get read_file true URI)) = [URI].
Proof.
  intros H. unfold fetch_source.
  destruct (requests_get 0 URI) as [| |code text];
    [contradiction | reflexivity |].
  destruct (negb (code =? 200)%Z); reflexivity.
Qed.

(** For the two catalogue URLs of the script the retry only changes
    the scheme. *)
Lemma fetch_source_retry_catalogue (URI : string) :
  URI = ASCII_URL \/ URI = CSV_URL ->
  requests_get 0 URI = GetSSLError ->
  exists rest,
    URI = "https" ++ rest /\
    requested (fst (fetch_source requests_get read_file true URI))
    = [URI; "http" ++ rest].
Proof.
  intros [-> | ->] H; rewrite (fetch_source_retry _ H).
  - exists "://www.astro.keele.ac.uk/jkt/tepcat/allplanets-ascii.txt".
    split; reflexivity.
  - exists "://www.astro.keele.ac.uk/jkt/tepcat/allplanets-csv.csv".
    split; reflexivity.
Qed.

(** C7, at the URL where the code departs from it: when the request to
    [https://example.org/https/planets.txt] fails on the certificate,
    the retry goes to [http://example.org/http/planets.txt]; the path
    has changed with the scheme. *)
Theorem retry_rewrites_https_in_path :
  requests_get 0 Sample.mirror_url = GetSSLError ->
  requested (fst (fetch_source requests_get read_file true
                               Sample.mirror_url))
  = [ "https://example.org/https/planets.txt";
      "http://example.org/http/planets.txt" ].
Proof.
  intros H. rewrite (fetch_source_retry _ H). reflexivity.
Qed.

End FetcherFacts.

(* ===================================================================== *)
(** ** The output envelope                                                *)
(* ===================================================================== *)

Section EnvelopeFacts.

Context {float datetime : Type}.
Variable strftime : datetime -> string.
Variable timegm : datetime -> Z.

(** C1 (as amended): without stamping the envelope is the same for
    every clock reading; its timestamp keys are [fetched_date_human]
    and [fetched_date_unix], they hold "unknown" and 0, and the keys
    [fetched_data_human_utc] and [fetched_data_unix_utc] are absent. *)
Theorem unstamped_envelope_sentinel (now : datetime)
        (data : list (value float)) :
  let env := build_output strftime timegm now data false in
  env = VDict [ ("fetched_date_human", VStr "unknown");
                ("fetched_date_unix", VInt 0);
                ("units_info", VStr HELP_URL);
                ("data", VList data) ] /\
  getitem env "fetched_date_human" = Some (VStr "unknown") /\
  getitem env "fetched_date_unix" = Some (VInt 0) /\
  getitem env "fetched_data_human_utc" = None /\
  getitem env "fetched_data_unix_utc" = None.
Proof. repeat split. Qed.

(** With stamping both forms come from the one reading [now]. *)
Lemma stamped_envelope (now : datetime) (data : list (value float)) :
  build_output strftime timegm now data true
  = VDict [ ("fetched_data_human_utc", VStr (strftime now));
            ("fetched_data_unix_utc", VInt (timegm now));
            ("units_info", VStr HELP_URL);
            ("data", VList data) ].
Proof. reflexivity. Qed.

End EnvelopeFacts.

(** C1 as stated fails: built without stamping, the envelope of the empty
    record list has no key [fetched_data_human_utc]. *)
Lemma unstamped_envelope_lacks_utc_keys :
  ~ (getitem (build_output (float := Sample.decimal)
                           Sample.render Sample.seconds Sample.now [] false)
             "fetched_data_human_utc" = Some (VStr "unknown") /\
     getitem (build_output (float := Sample.decimal)
                           Sample.render Sample.seconds Sample.now [] false)
             "fetched_data_unix_utc" = Some (VInt 0)).
Proof. intros [H _]. discriminate H. Qed.

(* ===================================================================== *)
(** ** The record parser: properties of a parse run                       *)
(* ===================================================================== *)

Section ParserFacts.

Context {float : Type} (py_float : string -> option float).

(** C3 (as amended): the schema has 43 fields.  A data line whose
    field count is not 43 raises TypeError when its row is built, and
    the run over any source that holds the line raises: it returns no
    records at all. *)
Theorem wrong_field_count_raises (src : list string) (skip : bool)
        (line : string) :
  In line src -> data_line line = true ->
  List.length (PyStr.split line) <> 43 ->
  parse_row py_float skip line = Raise TypeError /\
  exists e, parse_ascii py_float src skip = Raise e.
Proof.
  intros Hin Hdata Hlen.
  assert (Hrow : parse_row py_float skip line = Raise TypeError).
  { unfold parse_row, Properties. rewrite props_length.
    destruct (Nat.eqb_spec (List.length (PyStr.split line)) 43);
      [contradiction | reflexivity]. }
  split; [exact Hrow|].
  assert (Hbad : is_ok (parse_row py_float skip line) = false)
    by now rewrite Hrow.
  pose proof (parse_ascii_loop_raises py_float skip src line
                                      Hin Hdata Hbad []) as H.
  unfold parse_ascii.
  destruct (parse_ascii_loop py_float skip src []) as [recs|e];
    [discriminate | eauto].
Qed.

(** C4: a data line whose 43 fields are numbers where the schema wants
    numbers parses in both modes; for every measurement the record
    built with the error margins skipped holds the bare float of the
    measurement's column, and the record built with them holds the
    object of that float and of the floats of the columns
    [<field>_erru] and [<field>_errd], under the keys [value],
    [error_plus] and [error_minus]. *)
Theorem measurement_shape_by_mode (line : string) (x : namedtuple) :
  data_line line = true ->
  Properties (PyStr.split line) = Ok x ->
  well_formed py_float x ->
  exists bare full,
    parse_ascii py_float [line] true = Ok [bare] /\
    parse_ascii py_float [line] false = Ok [full] /\
    forall path col, In (path, col) measurement_fields ->
      exists s su sd v up down,
        getattr x col = Ok s /\ py_float s = Some v /\
        getattr x (col ++ "_erru") = Ok su /\ py_float su = Some up /\
        getattr x (col ++ "_errd") = Ok sd /\ py_float sd = Some down /\
        getpath bare path = Some (VFloat v) /\
        getpath full path = Some (triple v up down).
Proof.
  intros Hdata Hx Hwf.
  destruct (parse_row_total py_float true line x Hx Hwf) as (bare & Hbare).
  destruct (parse_row_total py_float false line x Hx Hwf) as (full & Hfull).
  exists bare, full.
  split; [|split].
  - unfold parse_ascii. cbn [parse_ascii_loop].
    rewrite skipped_data_line, Hdata. cbn [negb]. now rewrite Hbare.
  - unfold parse_ascii. cbn [parse_ascii_loop].
    rewrite skipped_data_line, Hdata. cbn [negb]. now rewrite Hfull.
  - intros path col Hin.
    destruct (parse_row_measurements py_float true line bare Hbare)
      as (x1 & Hx1 & M1).
    destruct (parse_row_measurements py_float false line full Hfull)
      as (x2 & Hx2 & M2).
    assert (x1 = x) by congruence. assert (x2 = x) by congruence.
    subst x1 x2.
    destruct (M1 path col Hin) as (v1 & Hg1 & Hp1).
    destruct (M2 path col Hin) as (v2 & Hg2 & Hp2).
    destruct (Properties_ok _ _ Hx) as [E Hlen]. rewrite <- E in Hlen.
    destruct (get_data_well_formed py_float x path col Hlen Hwf Hin)
      as (s & su & sd & f & fu & fd & Hs & Hf & Hsu & Hfu & Hsd & Hfd
          & Hb & Hfl).
    exists s, su, sd, f, fu, fd.
    repeat (split; [assumption|]).
    split; congruence.
Qed.

(** C5: in a successful run, when a reference code of a row does not
    start with [arXiv], the URL of that reference in the row's record is
    [http://adsabs.harvard.edu/abs/] followed by the code with every [+]
    turned into [&]; this URL holds no [+].  It is so for the discovery
    and for the recent reference, in both modes. *)
Theorem fallback_url_replaces_plus (src : list string) (skip : bool)
        (recs : list (value float)) (line : string) (r : value float)
        (key col code : string) :
  parse_ascii py_float src skip = Ok recs ->
  In (line, r) (rows_with_records src recs) ->
  In (key, col) reference_fields ->
  getattr (PyStr.split line) col = Ok code ->
  PyStr.startswith code "arXiv" = false ->
  let url := "http://adsabs.harvard.edu/abs/" ++ subst_char "+" "&" code in
  getpath r ["references"; key] = Some (VStr url) /\
  has_char "+" url = false.
Proof.
  intros Hrun Hin Hkey Hcode Hstart.
  destruct (parse_ascii_record_row py_float skip src recs line r Hrun Hin)
    as (_ & _ & Hrow).
  destruct (parse_row_inv py_float skip line r Hrow)
    as (x & system & Porb & period & d_ref & r_ref & Hx & _ & _ & _
        & Hd & Hr & _ & _ & _ & Hdisc & Hrec).
  destruct (Properties_ok _ _ Hx) as [-> _].
  cbv zeta. split.
  - destruct Hkey as [E|[E|[]]]; injection E as <- <-.
    + assert (d_ref = code) by congruence. subst d_ref.
      now rewrite Hstart, format_fallback_url in Hdisc.
    + assert (r_ref = code) by congruence. subst r_ref.
      now rewrite Hstart, format_fallback_url in Hrec.
  - cbn. apply subst_char_clears. discriminate.
Qed.

(** C6: in a successful run, when a reference code of a row starts with
    [arXiv], the URL of that reference in the row's record is
    [https://arxiv.org/abs/] followed by the code as it is.  It is so
    for the discovery and for the recent reference, in both modes. *)
Theorem arxiv_url_keeps_code (src : list string) (skip : bool)
        (recs : list (value float)) (line : string) (r : value float)
        (key col code : string) :
  parse_ascii py_float src skip = Ok recs ->
  In (line, r) (rows_with_records src recs) ->
  In (key, col) reference_fields ->
  getattr (PyStr.split line) col = Ok code ->
  PyStr.startswith code "arXiv" = true ->
  getpath r ["references"; key]
  = Some (VStr ("https://arxiv.org/abs/" ++ code)).
Proof.
  intros Hrun Hin Hkey Hcode Hstart.
  destruct (parse_ascii_record_row py_float skip src recs line r Hrun Hin)
    as (_ & _ & Hrow).
  destruct (parse_row_inv py_float skip line r Hrow)
    as (x & system & Porb & period & d_ref & r_ref & Hx & _ & _ & _
        & Hd & Hr & _ & _ & _ & Hdisc & Hrec).
  destruct (Properties_ok _ _ Hx) as [-> _].
  destruct Hkey as [E|[E|[]]]; injection E as <- <-.
  - assert (d_ref = code) by congruence. subst d_ref.
    now rewrite Hstart, format_arxiv_url in Hdisc.
  - assert (r_ref = code) by congruence. subst r_ref.
    now rewrite Hstart, format_arxiv_url in Hrec.
Qed.

(** C8: in a successful run, in either mode, the [period] of a row's
    record is a bare float, the float of the row's [Porb] column. *)
Theorem period_is_bare_float (src : list string) (skip : bool)
        (recs : list (value float)) (line : string) (r : value float) :
  parse_ascii py_float src skip = Ok recs ->
  In (line, r) (rows_with_records src recs) ->
  exists Porb period,
    getattr (PyStr.split line) "Porb" = Ok Porb /\
    py_float Porb = Some period /\
    getitem r "period" = Some (VFloat period).
Proof.
  intros Hrun Hin.
  destruct (parse_ascii_record_row py_float skip src recs line r Hrun Hin)
    as (_ & _ & Hrow).
  destruct (parse_row_inv py_float skip line r Hrow)
    as (x & system & Porb & period & d_ref & r_ref & Hx & _ & HP & Hf
        & _ & _ & _ & Hperiod & _).
  destruct (Properties_ok _ _ Hx) as [-> _].
  exists Porb, period. auto.
Qed.

(** C9: a successful run returns as many records as the source has
    lines that are not empty and do not start with [#], and the
    records are those of these lines, in the order of the lines. *)
Theorem one_record_per_data_line (src : list string) (skip : bool)
        (recs : list (value float)) :
  parse_ascii py_float src skip = Ok recs ->
  List.length recs = List.length (data_lines src) /\
  Forall2 (fun line r => parse_row py_float skip line = Ok r)
          (data_lines src) recs.
Proof.
  intros H. apply parse_ascii_loop_ok in H as (rows & -> & Hrows).
  cbn [app]. split; [|exact Hrows].
  symmetry. eapply Forall2_length. exact Hrows.
Qed.

(** C10: in a successful run the [human_url] of the references of a
    row's record is the catalogue's page URL around the system
    identifier of the row, which is the first field of the line as a
    string, and the [system] of the record. *)
Theorem human_url_from_system (src : list string) (skip : bool)
        (recs : list (value float)) (line : string) (r : value float) :
  parse_ascii py_float src skip = Ok recs ->
  In (line, r) (rows_with_records src recs) ->
  exists system,
    nth_error (PyStr.split line) 0 = Some system /\
    getattr (PyStr.split line) "system" = Ok system /\
    getitem r "system" = Some (VStr system) /\
    getpath r ["references"; "human_url"]
    = Some (VStr ("https://www.astro.keele.ac.uk/jkt/tepcat/planets/"
                  ++ system ++ ".html")).
Proof.
  intros Hrun Hin.
  destruct (parse_ascii_record_row py_float skip src recs line r Hrun Hin)
    as (_ & _ & Hrow).
  destruct (parse_row_inv py_float skip line r Hrow)
    as (x & system & Porb & period & d_ref & r_ref & Hx & Hs & _ & _
        & _ & _ & Hsys & _ & Hurl & _).
  destruct (Properties_ok _ _ Hx) as [-> _].
  exists system.
  split; [|split; [assumption | split; [assumption|]]].
  - change (getattr (PyStr.split line) "system")
      with (match nth_error (PyStr.split line) 0 with
            | Some v => Ok v
            | None => Raise AttributeError
            end) in Hs.
    destruct (nth_error (PyStr.split line) 0) as [v|]; [|discriminate].
    apply Ok_inj in Hs. now subst v.
  - now rewrite format_human_url in Hurl.
Qed.

End ParserFacts.

(* ===================================================================== *)
(** ** The properties on the sample run                                   *)
(* ===================================================================== *)

(** C3 as stated fails: the sample row has 43 fields, which is not 45,
    and the run over it returns its record. *)
Lemma schema_has_43_fields_not_45 :
  ~ (forall (src : list string) (skip : bool) (line : string),
        In line src -> data_line line = true ->
        List.length (PyStr.split line) <> 45 ->
        exists e, parse_ascii Sample.read_decimal src skip = Raise e).
Proof.
  intros H.
  destruct (H [Sample.row] true Sample.row) as (e & He).
  - left. reflexivity.
  - reflexivity.
  - vm_compute. discriminate.
  - vm_compute in He. discriminate He.
Qed.

Lemma wrong_field_count_raises_witness :
  parse_row Sample.read_decimal true Sample.long_row = Raise TypeError /\
  exists e,
    parse_ascii Sample.read_decimal [Sample.comment; Sample.long_row] true
    = Raise e.
Proof.
  apply (wrong_field_count_raises Sample.read_decimal
           [Sample.comment; Sample.long_row] true Sample.long_row).
  - right. left. reflexivity.
  - reflexivity.
  - vm_compute. discriminate.
Defined.

Lemma measurement_shape_by_mode_witness :
  exists bare full,
    parse_ascii Sample.read_decimal [Sample.row] true = Ok [bare] /\
    parse_ascii Sample.read_decimal [Sample.row] false = Ok [full] /\
    forall path col, In (path, col) measurement_fields ->
      exists s su sd v up down,
        getattr Sample.fields col = Ok s /\
        Sample.read_decimal s = Some v /\
        getattr Sample.fields (col ++ "_erru") = Ok su /\
        Sample.read_decimal su = Some up /\
        getattr Sample.fields (col ++ "_errd") = Ok sd /\
        Sample.read_decimal sd = Some down /\
        getpath bare path = Some (VFloat v) /\
        getpath full path = Some (triple v up down).
Proof.
  apply (measurement_shape_by_mode Sample.read_decimal Sample.row
                                   Sample.fields).
  - reflexivity.
  - vm_compute. reflexivity.
  - apply well_formed_check. vm_compute. reflexivity.
Defined.

Lemma fallback_url_replaces_plus_witness :
  getpath Sample.record ["references"; "discovery"]
  = Some (VStr "http://adsabs.harvard.edu/abs/2004ApJ...600L..67B&2005") /\
  has_char "+" "http://adsabs.harvard.edu/abs/2004ApJ...600L..67B&2005"
  = false.
Proof.
  apply (fallback_url_replaces_plus Sample.read_decimal Sample.source true
           [Sample.record] Sample.row Sample.record
           "discovery" "d_ref" "2004ApJ...600L..67B+2005").
  - vm_compute. reflexivity.
  - left. reflexivity.
  - left. reflexivity.
  - vm_compute. reflexivity.
  - reflexivity.
Defined.

Lemma arxiv_url_keeps_code_witness :
  getpath Sample.record ["references"; "recent"]
  = Some (VStr ("https://arxiv.org/abs/" ++ "arXiv:1004.1809")).
Proof.
  apply (arxiv_url_keeps_code Sample.read_decimal Sample.source true
           [Sample.record] Sample.row Sample.record
           "recent" "r_ref" "arXiv:1004.1809").
  - vm_compute. reflexivity.
  - left. reflexivity.
  - right. left. reflexivity.
  - vm_compute. reflexivity.
  - reflexivity.
Defined.

Lemma retry_rewrites_https_in_path_witness :
  requested (fst (fetch_source Sample.tls_fails_once Sample.no_files true
                               Sample.mirror_url))
  = [ "https://example.org/https/planets.txt";
      "http://example.org/http/planets.txt" ].
Proof.
  apply (retry_rewrites_https_in_path Sample.tls_fails_once Sample.no_files).
  reflexivity.
Defined.

Lemma period_is_bare_float_witness :
  exists Porb period,
    getattr (PyStr.split Sample.row) "Porb" = Ok Porb /\
    Sample.read_decimal Porb = Some period /\
    getitem Sample.record "period" = Some (VFloat period).
Proof.
  apply (period_is_bare_float Sample.read_decimal Sample.source true
           [Sample.record] Sample.row Sample.record).
  - vm_compute. reflexivity.
  - left. reflexivity.
Defined.

Lemma one_record_per_data_line_witness :
  List.length [Sample.record] = List.length (data_lines Sample.source) /\
  Forall2 (fun line r => parse_row Sample.read_decimal true line = Ok r)
          (data_lines Sample.source) [Sample.record].
Proof.
  apply (one_record_per_data_line Sample.read_decimal Sample.source true
                                  [Sample.record]).
  vm_compute. reflexivity.
Defined.

Lemma human_url_from_system_witness :
  exists system,
    nth_error (PyStr.split Sample.row) 0 = Some system /\
    getattr (PyStr.split Sample.row) "system" = Ok system /\
    getitem Sample.record "system" = Some (VStr system) /\
    getpath Sample.record ["references"; "human_url"]
    = Some (VStr ("https://www.astro.keele.ac.uk/jkt/tepcat/planets/"
                  ++ system ++ ".html")).
Proof.
  apply (human_url_from_system Sample.read_decimal Sample.source true
           [Sample.record] Sample.row Sample.record).
  - vm_compute. reflexivity.
  - left. reflexivity.
Defined.

(* ===================================================================== *)
(** ** More on the fetcher                                                *)
(* ===================================================================== *)

Lemma split_on_from_nonempty (sep : ascii) (s piece : string) :
  PyStr.split_on_from sep piece s <> [].
Proof.
  revert piece. induction s as [|c s IH]; intros piece; simpl.
  - discriminate.
  - destruct (Ascii.eqb c sep); [discriminate | apply IH].
Qed.

(** Joining the pieces with the separator gives the text back. *)
Lemma concat_split_on_from (sep : ascii) (s piece : string) :
  String.concat (String sep "") (PyStr.split_on_from sep piece s)
  = piece ++ s.
Proof.
  revert piece. induction s as [|c s IH]; intros piece;
    cbn [PyStr.split_on_from].
  - cbn. now rewrite append_empty_r.
  - destruct (Ascii.eqb_spec c sep) as [->|Hne].
    + specialize (IH "").
      destruct (PyStr.split_on_from sep "" s) as [|q qs] eqn:E.
      * now apply split_on_from_nonempty in E.
      * change (String.concat (String sep "") (piece :: q :: qs))
          with (piece ++ String sep ""
                ++ String.concat (String sep "") (q :: qs)).
        rewrite IH. reflexivity.
    + rewrite IH, append_assoc. reflexivity.
Qed.

Lemma has_char_app (a : ascii) (s t : string) :
  has_char a (s ++ t) = has_char a s || has_char a t.
Proof.
  induction s as [|c s IH]; simpl; [reflexivity|].
  now rewrite IH, orb_assoc.
Qed.

Lemma split_on_from_pieces (sep : ascii) (s piece : string) :
  has_char sep piece = false ->
  Forall (fun l => has_char sep l = false) (PyStr.split_on_from sep piece s).
Proof.
  revert piece. induction s as [|c s IH]; intros piece Hp; simpl.
  - now constructor.
  - destruct (Ascii.eqb c sep) eqn:E.
    + constructor; [assumption | now apply IH].
    + apply IH. rewrite has_char_app, Hp. simpl. now rewrite E.
Qed.

(** A separator at the end adds one empty piece. *)
Lemma split_on_from_trailing (sep : ascii) (s piece : string) :
  PyStr.split_on_from sep piece (s ++ String sep "")
  = (PyStr.split_on_from sep piece s ++ [""])%list.
Proof.
  revert piece. induction s as [|c s IH]; intros piece; simpl.
  - now rewrite Ascii.eqb_refl.
  - destruct (Ascii.eqb c sep); simpl; now rewrite IH.
Qed.

Section FetcherMore.

Variable requests_get : nat -> string -> get_outcome.
Variable read_file : string -> option string.

(** X1: a fetch succeeds exactly when there is a text to return (the
    file could be read, or the last request was answered with status
    200); the lines it returns then hold no line break and, joined by
    line breaks, are that text, character for character. *)
Theorem fetch_source_lines_rebuild_text (web : bool) (URI : string)
        (lines : list string) :
  snd (fetch_source requests_get read_file web URI) = Ok lines <->
  exists text,
    fetched_text requests_get read_file web URI = Some text /\
    lines = PyStr.split_on newline text /\
    String.concat (String newline "") lines = text /\
    Forall (fun l => has_char newline l = false) lines.
Proof.
  assert (Hsplit : forall text,
             String.concat (String newline "") (PyStr.split_on newline text)
             = text /\
             Forall (fun l => has_char newline l = false)
                    (PyStr.split_on newline text)).
  { intros text. split.
    - apply (concat_split_on_from newline text "").
    - now apply split_on_from_pieces. }
  assert (Hcode : forall code text (o : option string),
             match code with 200%Z => Some text | _ => o end
             = if (code =? 200)%Z then Some text else o).
  { intros code text o. destruct (Z.eqb_spec code 200) as [->|Hne];
      [reflexivity|].
    destruct code as [|p|p]; try reflexivity.
    do 8 (destruct p as [p|p|]; try reflexivity). congruence. }
  unfold fetch_source, fetched_text. destruct web.
  - destruct (requests_get 0 URI) as [| |code text].
    + destruct (requests_get 1 (PyStr.replace URI "https" "http"))
        as [| |code text]; cbn [snd].
      * split; [discriminate | intros (t & E & _); discriminate].
      * split; [discriminate | intros (t & E & _); discriminate].
      * rewrite Hcode. destruct (code =? 200)%Z; cbn [negb snd].
        -- split.
           ++ intros E. apply Ok_inj in E. subst lines. exists text.
              destruct (Hsplit text). auto.
           ++ intros (t & E & -> & _). congruence.
        -- split; [discriminate | intros (t & E & _); discriminate].
    + cbn [snd]. split; [discriminate | intros (t & E & _); discriminate].
    + rewrite Hcode. destruct (code =? 200)%Z; cbn [negb snd].
      * split.
        -- intros E. apply Ok_inj in E. subst lines. exists text.
           destruct (Hsplit text). auto.
        -- intros (t & E & -> & _). congruence.
      * split; [discriminate | intros (t & E & _); discriminate].
  - destruct (read_file URI) as [text|]; cbn [snd].
    + split.
      * intros E. apply Ok_inj in E. subst lines. exists text.
        destruct (Hsplit text). auto.
      * intros (t & E & -> & _). congruence.
    + split; [discriminate | intros (t & E & _); discriminate].
Qed.

(** X2: a remote fetch sends one request, or two when the first one
    failed on the certificate, and never more; the warning is printed
    exactly when there is a second request; when the second request
    fails on the certificate too, that failure is the result.  A local
    fetch sends no request. *)
Theorem fetch_source_requests_bounded (web : bool) (URI : string) :
  let trace := fst (fetch_source requests_get read_file web URI) in
  let retry := PyStr.replace URI "https" "http" in
  (web = false -> requested trace = [] /\ trace = [EvOpen URI]) /\
  (web = true ->
   (requests_get 0 URI <> GetSSLError /\ trace = [EvGet URI]) \/
   (requests_get 0 URI = GetSSLError /\
    requested trace = [URI; retry] /\
    (exists msg, trace = [EvGet URI; EvPrint msg; EvGet retry]) /\
    (requests_get 1 retry = GetSSLError ->
     snd (fetch_source requests_get read_file web URI) = Raise SSLError))).
Proof.
  cbv zeta. split; intros ->; unfold fetch_source.
  - destruct (read_file URI); split; reflexivity.
  - destruct (requests_get 0 URI) as [| |code text] eqn:E0.
    + right. split; [reflexivity|].
      destruct (requests_get 1 (PyStr.replace URI "https" "http"))
        as [| |code text] eqn:E1.
      * split; [reflexivity | split; [eexists; reflexivity | reflexivity]].
      * split; [reflexivity | split; [eexists; reflexivity | discriminate]].
      * destruct (negb (code =? 200)%Z);
          (split; [reflexivity | split; [eexists; reflexivity | discriminate]]).
    + left. split; [discriminate | reflexivity].
    + left. split; [discriminate|].
      destruct (negb (code =? 200)%Z); reflexivity.
Qed.

(** X3: a fetch raises RuntimeError exactly when the last request was
    answered with a status other than 200, and the error carries that
    status: also a status of success such as 204 is fatal. *)
Theorem fetch_source_bad_status (URI : string) (status : Z) :
  snd (fetch_source requests_get read_file true URI)
  = Raise (RuntimeError status) <->
  status <> 200%Z /\
  exists text,
    requests_get 0 URI = GetResponse status text \/
    (requests_get 0 URI = GetSSLError /\
     requests_get 1 (PyStr.replace URI "https" "http")
     = GetResponse status text).
Proof.
  unfold fetch_source.
  destruct (requests_get 0 URI) as [| |code text].
  - destruct (requests_get 1 (PyStr.replace URI "https" "http"))
      as [| |code text]; cbn [snd].
    + split; [discriminate | intros (_ & t & [E|[_ E]]); discriminate].
    + split; [discriminate | intros (_ & t & [E|[_ E]]); discriminate].
    + destruct (Z.eqb_spec code 200) as [->|Hne]; cbn [negb snd].
      * split; [discriminate|].
        intros (Hs & t & [E|[_ E]]); [discriminate | congruence].
      * split.
        -- intros E. injection E as <-. split; [assumption|].
           exists text. right. split; reflexivity.
        -- intros (Hs & t & [E|[_ E]]); [discriminate | congruence].
  - cbn [snd].
    split; [discriminate | intros (_ & t & [E|[E _]]); discriminate].
  - destruct (Z.eqb_spec code 200) as [->|Hne]; cbn [negb snd].
    + split; [discriminate|].
      intros (Hs & t & [E|[E _]]); [congruence | discriminate].
    + split.
      * intros E. injection E as <-. split; [assumption|].
        exists text. left. reflexivity.
      * intros (Hs & t & [E|[E _]]); [congruence | discriminate].
Qed.

End FetcherMore.

(* ===================================================================== *)
(** ** More on the parsing loop                                           *)
(* ===================================================================== *)

Lemma bind_ext {A B : Type} (m : result A) (k1 k2 : A -> result B) :
  (forall a, k1 a = k2 a) -> bind m k1 = bind m k2.
Proof. intros H. destruct m; simpl; [apply H | reflexivity]. Qed.

Lemma data_lines_app (a b : list string) :
  data_lines (a ++ b) = (data_lines a ++ data_lines b)%list.
Proof. apply filter_app. Qed.

Section LoopMore.

Context {float : Type} (py_float : string -> option float).

(** The list built so far only grows. *)
Lemma parse_ascii_loop_acc (skip : bool) (src : list string) :
  forall ret,
    parse_ascii_loop py_float skip src ret
    = rows <- parse_ascii_loop py_float skip src [] ;;
      Ok (ret ++ rows)%list.
Proof.
  induction src as [|line src IH]; intros ret; cbn [parse_ascii_loop].
  - cbn. now rewrite app_nil_r.
  - destruct (skipped line); [apply IH|].
    destruct (parse_row py_float skip line) as [row|e]; cbn [bind];
      [|reflexivity].
    rewrite (IH (ret ++ [row])%list), (IH ([] ++ [row])%list).
    destruct (parse_ascii_loop py_float skip src []) as [rows|e];
      cbn [bind]; [|reflexivity].
    now rewrite <- app_assoc.
Qed.

Lemma parse_ascii_loop_app (skip : bool) (a b : list string) :
  forall ret,
    parse_ascii_loop py_float skip (a ++ b) ret
    = ra <- parse_ascii_loop py_float skip a ret ;;
      parse_ascii_loop py_float skip b ra.
Proof.
  induction a as [|line a IH]; intros ret; cbn [app parse_ascii_loop].
  - reflexivity.
  - destruct (skipped line); [apply IH|].
    destruct (parse_row py_float skip line) as [row|e]; cbn [bind];
      [apply IH | reflexivity].
Qed.

(** Only the data lines count. *)
Lemma parse_ascii_loop_data_lines (skip : bool) (src : list string) :
  forall ret,
    parse_ascii_loop py_float skip src ret
    = parse_ascii_loop py_float skip (data_lines src) ret.
Proof.
  induction src as [|line src IH]; intros ret; [reflexivity|].
  unfold data_lines. cbn [parse_ascii_loop filter].
  rewrite skipped_data_line.
  destruct (data_line line) eqn:E; cbn [negb]; [|apply IH].
  cbn [parse_ascii_loop]. rewrite skipped_data_line, E. cbn [negb].
  apply bind_ext. intros row. apply IH.
Qed.

(** A run that raises stopped at its first data line that raises. *)
Lemma parse_ascii_loop_first_failure (skip : bool) (src : list string)
      (e : exn) :
  forall ret,
    parse_ascii_loop py_float skip src ret = Raise e ->
    exists before line after rows,
      src = (before ++ line :: after)%list /\
      data_line line = true /\
      parse_ascii_loop py_float skip before ret = Ok rows /\
      parse_row py_float skip line = Raise e.
Proof.
  induction src as [|line src IH]; intros ret H; [discriminate|].
  cbn [parse_ascii_loop] in H. rewrite skipped_data_line in H.
  destruct (data_line line) eqn:E; cbn [negb] in H.
  - destruct (parse_row py_float skip line) as [row|e'] eqn:Hrow;
      cbn [bind] in H.
    + destruct (IH _ H) as (before & l & after & rows & -> & Hl & Hb & Hr).
      exists (line :: before), l, after, rows.
      repeat split; try assumption.
      cbn [parse_ascii_loop]. rewrite skipped_data_line, E. cbn [negb].
      now rewrite Hrow.
    + exists [], line, src, ret. repeat split; try assumption. congruence.
  - destruct (IH _ H) as (before & l & after & rows & -> & Hl & Hb & Hr).
    exists (line :: before), l, after, rows.
    repeat split; try assumption.
    cbn [parse_ascii_loop]. rewrite skipped_data_line, E. now cbn [negb].
Qed.

(** X4: the result of a run, records or exception, depends on the data
    lines only: comment lines and empty lines may be added, moved or
    removed anywhere without changing it. *)
Theorem parse_ascii_ignores_skipped_lines (skip : bool)
        (src1 src2 : list string) :
  data_lines src1 = data_lines src2 ->
  parse_ascii py_float src1 skip = parse_ascii py_float src2 skip.
Proof.
  intros H. unfold parse_ascii.
  rewrite (parse_ascii_loop_data_lines skip src1),
    (parse_ascii_loop_data_lines skip src2).
  now rewrite H.
Qed.

(** X5: a run over two sources put end to end is the run over the first
    followed by the run over the second: the records of both in order,
    or the exception of the first, or else that of the second. *)
Theorem parse_ascii_app (skip : bool) (a b : list string) :
  parse_ascii py_float (a ++ b) skip
  = ra <- parse_ascii py_float a skip ;;
    rb <- parse_ascii py_float b skip ;;
    Ok (ra ++ rb)%list.
Proof.
  unfold parse_ascii. rewrite parse_ascii_loop_app.
  apply bind_ext. intros ra. apply parse_ascii_loop_acc.
Qed.

(** X6: the line break that ends a text adds no record and no error:
    the text with a final line break parses as the text without it. *)
Theorem parse_ascii_final_line_break (skip : bool) (text : string) :
  parse_ascii py_float
              (PyStr.split_on newline (text ++ String newline "")) skip
  = parse_ascii py_float (PyStr.split_on newline text) skip.
Proof.
  unfold PyStr.split_on. rewrite split_on_from_trailing.
  unfold parse_ascii.
  rewrite parse_ascii_loop_data_lines, data_lines_app.
  cbn [data_lines filter data_line]. rewrite app_nil_r.
  symmetry. apply parse_ascii_loop_data_lines.
Qed.

End LoopMore.

(* ===================================================================== *)
(** ** More on one row                                                    *)
(* ===================================================================== *)

Lemma Properties_raise (args : list string) (e : exn) :
  Properties args = Raise e -> e = TypeError /\ List.length args <> 43.
Proof.
  unfold Properties. rewrite props_length.
  destruct (Nat.eqb_spec (List.length args) 43); intros H;
    [discriminate|].
  split; [congruence | assumption].
Qed.

Lemma measurement_column (col : string) :
  mem col (map snd measurement_fields) = true ->
  exists path, In (path, col) measurement_fields.
Proof.
  intros H. apply mem_In, in_map_iff in H as ([path c] & E & Hin).
  cbn [snd] in E. subst c. eauto.
Qed.

(** Every numeric column is the period or belongs to a measurement. *)
Lemma numeric_columns_cover (name : string) :
  In name numeric_columns ->
  name = "Porb" \/
  exists path col,
    In (path, col) measurement_fields /\
    (name = col \/ name = col ++ "_erru" \/ name = col ++ "_errd").
Proof.
  assert (H : forallb
                (fun n =>
                   String.eqb n "Porb"
                   || existsb (fun pc =>
                                 String.eqb n (snd pc)
                                 || String.eqb n (snd pc ++ "_erru")
                                 || String.eqb n (snd pc ++ "_errd"))
                              measurement_fields)
                numeric_columns = true) by reflexivity.
  intros Hin. apply (proj1 (forallb_forall _ _) H) in Hin.
  apply orb_true_iff in Hin as [E|E].
  - left. now apply String.eqb_eq.
  - right. apply existsb_exists in E as ([path col] & Hpc & E).
    cbn [snd] in E. exists path, col. split; [assumption|].
    apply orb_true_iff in E as [E|E];
      [apply orb_true_iff in E as [E|E]|];
      apply String.eqb_eq in E; auto.
Qed.

Section RowMore.

Context {float : Type} (py_float : string -> option float).

Lemma to_float_raise (s : string) (e : exn) :
  to_float py_float s = Raise e -> e = ValueError /\ py_float s = None.
Proof.
  unfold to_float. destruct (py_float s); intros H; [discriminate|].
  split; congruence.
Qed.

Lemma get_data_bare_inv (x : namedtuple) (col : string) (v : value float) :
  get_data py_float true x col = Ok v ->
  exists s f, getattr x col = Ok s /\ py_float s = Some f /\ v = VFloat f.
Proof.
  unfold get_data. intros H.
  apply bind_ok in H as (s & Hs & H).
  apply bind_ok in H as (f & Hf & H).
  apply to_float_ok in Hf. apply Ok_inj in H. eauto.
Qed.

Lemma get_data_full_inv (x : namedtuple) (col : string) (v : value float) :
  get_data py_float false x col = Ok v ->
  exists s su sd f fu fd,
    getattr x col = Ok s /\ py_float s = Some f /\
    getattr x (col ++ "_erru") = Ok su /\ py_float su = Some fu /\
    getattr x (col ++ "_errd") = Ok sd /\ py_float sd = Some fd /\
    v = triple f fu fd.
Proof.
  unfold get_data.
  change (PyStr.format "{}_{}" [col; "erru"]) with (col ++ "_erru").
  change (PyStr.format "{}_{}" [col; "errd"]) with (col ++ "_errd").
  cbv zeta. intros H.
  apply bind_ok in H as (s & Hs & H). apply bind_ok in H as (f & Hf & H).
  apply bind_ok in H as (su & Hsu & H). apply bind_ok in H as (fu & Hfu & H).
  apply bind_ok in H as (sd & Hsd & H). apply bind_ok in H as (fd & Hfd & H).
  apply to_float_ok in Hf, Hfu, Hfd. apply Ok_inj in H.
  exists s, su, sd, f, fu, fd. repeat (split; [assumption|]).
  now subst v.
Qed.

(** On a row of 43 fields a measurement can only raise ValueError. *)
Lemma get_data_raise (skip : bool) (x : namedtuple) (col : string)
      (e : exn) :
  List.length x = 43 ->
  mem col (map snd measurement_fields) = true ->
  get_data py_float skip x col = Raise e -> e = ValueError.
Proof.
  intros Hlen Hcol H.
  destruct (measurement_column col Hcol) as (path & Hin).
  destruct (measurement_columns_numeric _ _ Hin) as (Hc & Hu & Hd).
  apply numeric_columns_props in Hc, Hu, Hd.
  destruct (getattr_total x _ Hlen Hc) as (s & Hs).
  destruct (getattr_total x _ Hlen Hu) as (su & Hsu).
  destruct (getattr_total x _ Hlen Hd) as (sd & Hsd).
  unfold get_data in H.
  change (PyStr.format "{}_{}" [col; "erru"]) with (col ++ "_erru") in H.
  change (PyStr.format "{}_{}" [col; "errd"]) with (col ++ "_errd") in H.
  cbv zeta in H. destruct skip.
  - rewrite Hs in H. cbn [bind] in H.
    apply bind_raise in H as [H | (f & _ & H)]; [|discriminate].
    now apply to_float_raise in H.
  - rewrite Hs, Hsu, Hsd in H. cbn [bind] in H.
    apply bind_raise in H as [H | (f & _ & H)];
      [now apply to_float_raise in H|].
    cbn [bind] in H.
    apply bind_raise in H as [H | (fu & _ & H)];
      [now apply to_float_raise in H|].
    cbn [bind] in H.
    apply bind_raise in H as [H | (fd & _ & H)];
      [now apply to_float_raise in H | discriminate].
Qed.

(** One step through a [bind] of a row of 43 fields that raises: what
    raised is a [float], or the run went on. *)
Ltac classify_step H Hlen :=
  let a := fresh "a" in
  let Ha := fresh "Ha" in
  apply bind_raise in H; destruct H as [H | (a & Ha & H)];
  [ solve
      [ match type of H with
        | getattr ?x ?n = Raise _ =>
            let s := fresh "s" in
            let Hs := fresh "Hs" in
            destruct (getattr_total x n Hlen (mem_In n props eq_refl))
              as (s & Hs); congruence
        | to_float _ _ = Raise _ =>
            apply to_float_raise in H; exact (proj1 H)
        | get_data _ _ _ ?c = Raise _ =>
            exact (get_data_raise _ _ c _ Hlen eq_refl H)
        | (if ?c then _ else _) = Raise _ =>
            destruct c;
            cbn [set_in OrderedDict.get OrderedDict.set
                 String.eqb Ascii.eqb Bool.eqb] in H;
            discriminate
        | _ =>
            cbn [set_in OrderedDict.get OrderedDict.set
                 String.eqb Ascii.eqb Bool.eqb] in H;
            discriminate
        end ]
  | cbv beta in H;
    try match type of Ha with
        | (if ?c then _ else _) = _ => destruct c eqn:?
        end;
    try (cbn [set_in OrderedDict.get OrderedDict.set
              String.eqb Ascii.eqb Bool.eqb] in Ha;
         apply Ok_inj in Ha; subst a) ].

(** The two ways a row raises: TypeError for a field count other than
    43, ValueError for a row of 43 fields.  No attribute and no key is
    ever missing. *)
Lemma parse_row_raise (skip : bool) (line : string) (e : exn) :
  parse_row py_float skip line = Raise e ->
  (e = TypeError /\ List.length (PyStr.split line) <> 43) \/
  (e = ValueError /\ List.length (PyStr.split line) = 43).
Proof.
  unfold parse_row. intros H. cbv zeta in H.
  apply bind_raise in H as [H | (x & Hx & H)].
  - left. now apply Properties_raise.
  - right. destruct (Properties_ok _ _ Hx) as [E Hlen].
    split; [|exact Hlen]. rewrite <- E in Hlen. clear E Hx.
    cbv beta in H.
    do 33 classify_step H Hlen.
    all: discriminate.
Qed.

(** The columns a mode reads are numeric in a row that parses. *)
Lemma parse_row_ok_numeric (skip : bool) (line : string)
      (r : value float) :
  parse_row py_float skip line = Ok r ->
  exists x,
    Properties (PyStr.split line) = Ok x /\
    numeric_on py_float x (columns_read skip).
Proof.
  intros H.
  destruct (parse_row_measurements py_float skip line r H)
    as (x & Hx & M).
  destruct (parse_row_inv py_float skip line r H)
    as (x' & system & Porb & period & d_ref & r_ref & Hx' & _ & HP & Hf
        & _).
  assert (x' = x) by congruence. subst x'.
  exists x. split; [assumption|].
  intros name s Hin Hs.
  assert (Hgood : forall f, py_float s = Some f -> py_float s <> None)
    by congruence.
  destruct skip; cbn [columns_read] in Hin.
  - destruct Hin as [<-|Hin].
    + assert (s = Porb) by congruence. subst s. eauto.
    + apply in_map_iff in Hin as ([path col] & E & Hin).
      cbn [snd] in E. subst col.
      destruct (M path name Hin) as (v & Hv & _).
      apply get_data_bare_inv in Hv as (s' & f & Hs' & Hf' & _).
      assert (s' = s) by congruence. subst s'. eauto.
  - apply numeric_columns_cover in Hin
      as [-> | (path & col & Hin & Hname)].
    + assert (s = Porb) by congruence. subst s. eauto.
    + destruct (M path col Hin) as (v & Hv & _).
      apply get_data_full_inv in Hv
        as (s0 & su & sd & f & fu & fd & Hs0 & Hf0 & Hsu & Hfu & Hsd & Hfd
            & _).
      destruct Hname as [-> | [-> | ->]].
      * assert (s0 = s) by congruence. subst s0. eauto.
      * assert (su = s) by congruence. subst su. eauto.
      * assert (sd = s) by congruence. subst sd. eauto.
Qed.

(** Conversely a row of 43 fields parses when the columns its mode
    reads are numeric. *)
Lemma parse_row_numeric_ok (skip : bool) (line : string) (x : namedtuple) :
  Properties (PyStr.split line) = Ok x ->
  numeric_on py_float x (columns_read skip) ->
  exists r, parse_row py_float skip line = Ok r.
Proof.
  intros Hx Hnum. destruct skip.
  - now apply parse_row_skip_ignores_errors with x.
  - now apply parse_row_total with x.
Qed.

End RowMore.

(* ===================================================================== *)
(** ** The whole record                                                   *)
(* ===================================================================== *)

Lemma Forall_exists_Forall2 {A B : Type} (P : A -> B -> Prop)
      (l : list A) :
  Forall (fun a => exists b, P a b) l -> exists l', Forall2 P l l'.
Proof.
  induction 1 as [|a l (b & Hb) _ (l' & IH)].
  - exists []. constructor.
  - exists (b :: l'). now constructor.
Qed.

Lemma getpath_app {float : Type} (v : value float) (p q : list string) :
  getpath v (p ++ q)
  = match getpath v p with
    | Some v' => getpath v' q
    | None => None
    end.
Proof.
  revert v. induction p as [|k p IH]; intros v; cbn [app getpath].
  - reflexivity.
  - destruct (getitem v k); [apply IH | reflexivity].
Qed.

Lemma central_columns_numeric (name : string) :
  In name central_columns -> In name numeric_columns.
Proof.
  assert (H : forallb (fun n => mem n numeric_columns) central_columns
              = true) by reflexivity.
  intros Hin. apply mem_In. now apply (proj1 (forallb_forall _ _) H).
Qed.

Section RecordFacts.

Context {float : Type} (py_float : string -> option float).

Ltac shape_step H :=
  let a := fresh "a" in
  let Ha := fresh "Ha" in
  apply bind_ok in H; destruct H as (a & Ha & H); cbv beta in H;
  try match type of Ha with
      | (if ?c then _ else _) = _ => destruct c eqn:?
      end;
  try (cbn [set_in OrderedDict.get OrderedDict.set
            String.eqb Ascii.eqb Bool.eqb] in Ha;
       apply Ok_inj in Ha; subst a).

(** A successful row is [record_of] its columns. *)
Lemma parse_row_shape (skip : bool) (line : string) (r : value float) :
  parse_row py_float skip line = Ok r ->
  exists x system Porb period d_ref r_ref m,
    Properties (PyStr.split line) = Ok x /\
    getattr x "system" = Ok system /\
    getattr x "Porb" = Ok Porb /\
    py_float Porb = Some period /\
    getattr x "d_ref" = Ok d_ref /\
    getattr x "r_ref" = Ok r_ref /\
    (forall path col, In (path, col) measurement_fields ->
                      get_data py_float skip x col = Ok (m col)) /\
    r = record_of system period m d_ref r_ref.
Proof.
  unfold parse_row. intros H. cbv zeta in H.
  do 34 shape_step H.
  all: apply Ok_inj in H; subst r.
  all: match goal with
       | Hx : Properties _ = Ok ?x,
         Hs : getattr ?x "system" = Ok ?s,
         Hs' : getattr ?x "system" = Ok ?s',
         Hp : getattr ?x "Porb" = Ok ?p,
         Hf : to_float _ ?p = Ok ?f,
         Hd : getattr ?x "d_ref" = Ok ?d,
         Hr : getattr ?x "r_ref" = Ok ?rr |- _ =>
           assert (s' = s) by congruence; subst s';
           apply to_float_ok in Hf;
           exists x, s, p, f, d, rr,
             (fun col => match get_data py_float skip x col with
                         | Ok v => v
                         | Raise _ => VStr ""
                         end)
       end.
  all: repeat (split; [assumption|]).
  all: split;
    [ intros path col Hin; cbn [measurement_fields In] in Hin;
      repeat (destruct Hin as [Hin|Hin];
              [apply pair_equal_spec in Hin as [_ <-];
               match goal with
               | Hv : get_data _ _ _ ?c = Ok _ |- get_data _ _ _ ?c = _ =>
                   rewrite Hv; reflexivity
               end |]);
      contradiction
    | unfold record_of, reference_url;
      repeat match goal with
             | Hv : get_data _ _ _ ?c = Ok _
               |- context [get_data _ _ _ ?c] => rewrite Hv
             end;
      repeat match goal with
             | E : PyStr.startswith _ _ = _ |- _ => rewrite E; clear E
             end;
      rewrite <- ?format_arxiv_url, <- ?format_fallback_url;
      reflexivity ].
Qed.

(** A row that parses with its error margins parses without them, to
    the same central values. *)
Lemma parse_row_modes_agree (line : string) (full : value float) :
  parse_row py_float false line = Ok full ->
  exists bare,
    parse_row py_float true line = Ok bare /\
    same_central_values full bare.
Proof.
  intros Hfull.
  destruct (parse_row_ok_numeric py_float false line full Hfull)
    as (x & Hx & Hnum).
  assert (Hcentral : numeric_on py_float x (columns_read true)).
  { intros name s Hin. apply Hnum. now apply central_columns_numeric. }
  destruct (parse_row_numeric_ok py_float true line x Hx Hcentral)
    as (bare & Hbare).
  exists bare. split; [assumption|].
  destruct (parse_row_shape false line full Hfull)
    as (x1 & sys1 & P1 & p1 & d1 & r1 & m1 & Hx1 & Hs1 & HP1 & Hp1 & Hd1
        & Hr1 & M1 & ->).
  destruct (parse_row_shape true line bare Hbare)
    as (x2 & sys2 & P2 & p2 & d2 & r2 & m2 & Hx2 & Hs2 & HP2 & Hp2 & Hd2
        & Hr2 & M2 & ->).
  assert (x1 = x) by congruence. assert (x2 = x) by congruence.
  subst x1 x2.
  assert (sys2 = sys1) by congruence. assert (P2 = P1) by congruence.
  assert (d2 = d1) by congruence. assert (r2 = r1) by congruence.
  subst sys2 P2 d2 r2.
  assert (p2 = p1) by congruence. subst p2.
  repeat split.
  intros path col Hin.
  pose proof (M1 path col Hin) as Hv1. pose proof (M2 path col Hin) as Hv2.
  apply get_data_full_inv in Hv1
    as (s & su & sd & f & fu & fd & Hs & Hf & _ & _ & _ & _ & E1).
  apply get_data_bare_inv in Hv2 as (s' & f' & Hs' & Hf' & E2).
  assert (s' = s) by congruence. subst s'.
  assert (f' = f) by congruence. subst f'.
  exists f.
  cbn [measurement_fields In] in Hin.
  repeat (destruct Hin as [Hin|Hin];
          [apply pair_equal_spec in Hin as [<- <-];
           cbn [app]; unfold record_of; cbn [getpath getitem OrderedDict.get
             String.eqb Ascii.eqb Bool.eqb];
           rewrite E1, E2; split; reflexivity |]).
  contradiction.
Qed.

End RecordFacts.

(* ===================================================================== *)
(** ** More properties of a parse run                                     *)
(* ===================================================================== *)

Lemma split_from_all_space (s : string) :
  all_space s = true -> PyStr.split_from "" s = [].
Proof.
  induction s as [|c s IH]; [reflexivity|].
  cbn [all_space PyStr.split_from]. intros H.
  apply andb_true_iff in H as [Hc Hs]. rewrite Hc. cbn. now apply IH.
Qed.

Lemma space_is_data_line (line : string) :
  line <> "" -> all_space line = true -> data_line line = true.
Proof.
  destruct line as [|c s]; [congruence|]. intros _ H.
  cbn [all_space] in H. apply andb_true_iff in H as [Hc _].
  cbn [data_line]. destruct (Ascii.eqb_spec c "#") as [->|]; [|reflexivity].
  discriminate Hc.
Qed.

Section ParserMore.

Context {float : Type} (py_float : string -> option float).

(** A run stops at a data line that raises, with that exception. *)
Lemma parse_ascii_stops_at (skip : bool) (before after : list string)
      (line : string) (rows : list (value float)) (e : exn) :
  parse_ascii py_float before skip = Ok rows ->
  data_line line = true ->
  parse_row py_float skip line = Raise e ->
  parse_ascii py_float (before ++ line :: after) skip = Raise e.
Proof.
  unfold parse_ascii. intros Hb Hdata Hrow.
  rewrite parse_ascii_loop_app, Hb. cbn [bind parse_ascii_loop].
  rewrite skipped_data_line, Hdata. cbn [negb]. now rewrite Hrow.
Qed.

(** X7: a run succeeds exactly when every data line has 43 fields and
    [float] accepts every column the mode reads of it: all 40 numeric
    columns with the error margins, the period and the 13 central
    values without. *)
Theorem parse_ascii_succeeds_iff (skip : bool) (src : list string) :
  (exists recs, parse_ascii py_float src skip = Ok recs) <->
  Forall (fun line =>
            exists x,
              Properties (PyStr.split line) = Ok x /\
              numeric_on py_float x (columns_read skip))
         (data_lines src).
Proof.
  split.
  - intros (recs & H). apply parse_ascii_loop_ok in H as (rows & _ & Hrows).
    induction Hrows as [|line r ls rs Hrow _ IH]; constructor;
      [|assumption].
    exact (parse_row_ok_numeric py_float skip line r Hrow).
  - intros H.
    assert (Hrows : Forall (fun line =>
                              exists r, parse_row py_float skip line = Ok r)
                           (data_lines src)).
    { eapply Forall_impl; [|exact H]. cbv beta.
      intros line (x & Hx & Hnum).
      exact (parse_row_numeric_ok py_float skip line x Hx Hnum). }
    apply Forall_exists_Forall2 in Hrows as (rows & Hrows).
    exists rows. unfold parse_ascii.
    now rewrite (parse_ascii_loop_complete py_float skip src [] rows Hrows).
Qed.

(** X8: a run that raises stopped at its first data line that does not
    parse, after the lines before it parsed; the exception is TypeError
    when that line has not 43 fields, and ValueError when it has 43
    fields and [float] rejects one of the columns the mode reads.  A run
    raises nothing else. *)
Theorem parse_ascii_exception_kinds (skip : bool) (src : list string)
        (e : exn) :
  parse_ascii py_float src skip = Raise e ->
  exists before line after rows,
    src = (before ++ line :: after)%list /\
    data_line line = true /\
    parse_ascii py_float before skip = Ok rows /\
    ((e = TypeError /\ List.length (PyStr.split line) <> 43) \/
     (e = ValueError /\ List.length (PyStr.split line) = 43 /\
      ~ numeric_on py_float (PyStr.split line) (columns_read skip))).
Proof.
  intros H. apply parse_ascii_loop_first_failure in H
    as (before & line & after & rows & -> & Hdata & Hb & Hrow).
  exists before, line, after, rows.
  split; [reflexivity|]. repeat (split; [assumption|]).
  destruct (parse_row_raise py_float skip line e Hrow) as [[-> Hlen]|[-> Hlen]].
  - left. now split.
  - right. repeat split; [assumption|]. intros Hnum.
    assert (Hx : Properties (PyStr.split line) = Ok (PyStr.split line)).
    { unfold Properties. rewrite props_length, Hlen. reflexivity. }
    destruct (parse_row_numeric_ok py_float skip line _ Hx Hnum) as (r & Hr).
    congruence.
Qed.

(** X9: text that is no number in a column the mode reads is fatal: when
    the lines before parsed, the run raises ValueError at a data line of
    43 fields with such a column; the row is not skipped, nothing is put
    in place of the value, and the records of the lines before are not
    returned. *)
Theorem non_numeric_column_raises (skip : bool)
        (before after : list string) (line : string)
        (rows : list (value float)) (x : namedtuple) (name s : string) :
  parse_ascii py_float before skip = Ok rows ->
  data_line line = true ->
  Properties (PyStr.split line) = Ok x ->
  In name (columns_read skip) ->
  getattr x name = Ok s ->
  py_float s = None ->
  parse_ascii py_float (before ++ line :: after) skip = Raise ValueError.
Proof.
  intros Hb Hdata Hx Hname Hs Hf.
  apply parse_ascii_stops_at with rows; try assumption.
  destruct (parse_row py_float skip line) as [r|e] eqn:Hrow.
  - destruct (parse_row_ok_numeric py_float skip line r Hrow)
      as (x' & Hx' & Hnum).
    assert (x' = x) by congruence. subst x'.
    now destruct (Hnum name s Hname Hs).
  - destruct (parse_row_raise py_float skip line e Hrow)
      as [[_ Hlen]|[-> _]]; [|reflexivity].
    destruct (Properties_ok _ _ Hx) as [_ Hlen']. contradiction.
Qed.

(** X10: a line of white space only is not skipped: it is not empty, it
    has no fields, and when the lines before parsed the run raises
    TypeError at it.  (Such is the line between two line breaks of a
    text with CR LF line ends.) *)
Theorem blank_line_raises (skip : bool) (before after : list string)
        (line : string) (rows : list (value float)) :
  parse_ascii py_float before skip = Ok rows ->
  line <> "" -> all_space line = true ->
  parse_ascii py_float (before ++ line :: after) skip = Raise TypeError.
Proof.
  intros Hb Hne Hspace.
  apply parse_ascii_stops_at with rows; try assumption.
  - now apply space_is_data_line.
  - unfold parse_row, PyStr.split.
    now rewrite (split_from_all_space line Hspace).
Qed.

(** X11: a source that parses with the error margins parses without
    them, record for record to the same central values: the same
    system, period and references, and each bare float of the one is the
    [value] of the measurement of the other. *)
Theorem modes_agree (src : list string) (fulls : list (value float)) :
  parse_ascii py_float src false = Ok fulls ->
  exists bares,
    parse_ascii py_float src true = Ok bares /\
    Forall2 same_central_values fulls bares.
Proof.
  intros H. apply parse_ascii_loop_ok in H as (rows & -> & Hrows).
  cbn [app].
  assert (Hex : exists bares,
             Forall2 (fun line r => parse_row py_float true line = Ok r)
                     (data_lines src) bares /\
             Forall2 same_central_values rows bares).
  { induction Hrows as [|line full ls fs Hrow _ (bares & IH1 & IH2)].
    - exists []. split; constructor.
    - destruct (parse_row_modes_agree py_float line full Hrow)
        as (bare & Hbare & Hsame).
      exists (bare :: bares). split; now constructor. }
  destruct Hex as (bares & Hb & Hsame).
  exists bares. split; [|assumption].
  unfold parse_ascii.
  now rewrite (parse_ascii_loop_complete py_float true src [] bares Hb).
Qed.

(** X12: every record of a successful run, in either mode, has the same
    keys in the same order: seven at the top, six stellar properties,
    five planetary properties and three references. *)
Theorem record_keys_fixed (src : list string) (skip : bool)
        (recs : list (value float)) (r : value float) :
  parse_ascii py_float src skip = Ok recs -> In r recs ->
  keys_of r = [ "system"; "period"; "eccentricity"; "semimajor_AU";
                "stellar_properties"; "planetary_properties";
                "references" ] /\
  option_map keys_of (getitem r "stellar_properties")
  = Some [ "temp_k"; "metal_log"; "mass_sol"; "radius_sol";
           "gravity_log_cgs"; "density_sol" ] /\
  option_map keys_of (getitem r "planetary_properties")
  = Some [ "mass_jup"; "radius_jup"; "gravity"; "density_jup";
           "temp_eq_k" ] /\
  option_map keys_of (getitem r "references")
  = Some [ "human_url"; "discovery"; "recent" ].
Proof.
  intros Hrun Hin.
  destruct (every_record_has_its_row py_float skip src recs r Hrun Hin)
    as (line & Hline).
  destruct (parse_ascii_record_row py_float skip src recs line r Hrun Hline)
    as (_ & _ & Hrow).
  destruct (parse_row_shape py_float skip line r Hrow)
    as (x & system & Porb & period & d_ref & r_ref & m & _ & _ & _ & _ & _
        & _ & _ & ->).
  repeat split.
Qed.

(** X13: with the error margins skipped a row is read through 17 of its
    43 columns only (the system, the period, the 13 central values and
    the two reference codes): two data lines of 43 fields that agree on
    these give the same result, whatever their other 26 columns hold. *)
Theorem skip_mode_reads_central_columns_only (line1 line2 : string)
        (x1 x2 : namedtuple) :
  Properties (PyStr.split line1) = Ok x1 ->
  Properties (PyStr.split line2) = Ok x2 ->
  (forall name, In name read_columns -> getattr x1 name = getattr x2 name) ->
  parse_row py_float true line1 = parse_row py_float true line2.
Proof.
  intros H1 H2 Hsame. unfold parse_row. rewrite H1, H2.
  cbn [bind]. cbv zeta. unfold get_data.
  repeat match goal with
         | |- context [getattr x1 ?n] =>
             rewrite (Hsame n (mem_In n read_columns eq_refl))
         end.
  reflexivity.
Qed.

End ParserMore.

(* ===================================================================== *)
(** ** The CSV layout                                                     *)
(* ===================================================================== *)

Lemma split_from_field (f rest tok : string) :
  has_space f = false ->
  PyStr.split_from tok (f ++ rest) = PyStr.split_from (tok ++ f) rest.
Proof.
  revert tok. induction f as [|c f IH]; intros tok H.
  - cbn. now rewrite append_empty_r.
  - cbn [has_space] in H. apply orb_false_iff in H as [Hc Hf].
    cbn [append PyStr.split_from]. rewrite Hc, (IH _ Hf), append_assoc.
    reflexivity.
Qed.

Lemma plain_field_inv (f : string) :
  plain_field f = true ->
  PyStr.is_empty f = false /\ has_space f = false /\ has_char "," f = false.
Proof.
  unfold plain_field. intros H.
  apply andb_true_iff in H as [H Hc]. apply andb_true_iff in H as [He Hs].
  apply negb_true_iff in He, Hs, Hc. auto.
Qed.

(** Splitting the fields joined by spaces gives the fields back. *)
Lemma split_concat_space (fields : list string) :
  forallb plain_field fields = true ->
  PyStr.split (String.concat " " fields) = fields.
Proof.
  unfold PyStr.split.
  induction fields as [|f fs IH]; [reflexivity|].
  cbn [forallb]. intros H. apply andb_true_iff in H as [Hf Hfs].
  apply plain_field_inv in Hf as (He & Hs & _).
  specialize (IH Hfs). destruct fs as [|g fs].
  - cbn [String.concat]. rewrite <- (append_empty_r f) at 1.
    rewrite (split_from_field f "" "" Hs). cbn [append PyStr.split_from].
    now rewrite He.
  - change (String.concat " " (f :: g :: fs))
      with (f ++ String " " (String.concat " " (g :: fs))).
    rewrite (split_from_field f _ "" Hs).
    cbn [append PyStr.split_from]. rewrite He.
    change (PyStr.isspace " ") with true. cbv iota. now rewrite IH.
Qed.

Lemma plain_fields_comma_free (fields : list string) :
  forallb plain_field fields = true ->
  forallb (fun f => negb (has_char "," f)) fields = true.
Proof.
  intros H. apply forallb_forall. intros f Hf.
  apply (proj1 (forallb_forall _ _) H) in Hf.
  apply plain_field_inv in Hf as (_ & _ & Hc). now rewrite Hc.
Qed.

(** X14: fields that are not empty and hold neither white space nor
    comma come back as they are, one field each, from the row that
    joins them by commas once [parse_csv] has replaced its commas, as
    they do from the row that joins them by spaces. *)
Theorem csv_fields_round_trip (fields : list string) :
  forallb plain_field fields = true ->
  PyStr.split (PyStr.replace (String.concat "," fields) "," " ") = fields /\
  PyStr.split (String.concat " " fields) = fields.
Proof.
  intros H. split; [|now apply split_concat_space].
  rewrite (replace_single "," " "), subst_comma_concat.
  - now apply split_concat_space.
  - now apply plain_fields_comma_free.
Qed.

Section CsvMore.

Context {float : Type} (py_float : string -> option float).

(** X15: [parse_csv] never reads the first line of its source: of a CSV
    source without header line the first row is lost without an error;
    the result is that of the other rows. *)
Theorem parse_csv_drops_first_line (rows : list (list string))
        (skip : bool) :
  forallb (forallb (fun f => negb (has_char "," f))) rows = true ->
  parse_csv py_float (map (String.concat ",") rows) skip
  = parse_ascii py_float (map (String.concat " ") (tl rows)) skip.
Proof.
  intros H. unfold parse_csv. f_equal.
  destruct rows as [|row rows]; [reflexivity|].
  cbn [map tl]. cbn [forallb] in H. apply andb_true_iff in H as [_ H].
  rewrite map_map. apply map_ext_in. intros r Hr.
  rewrite (replace_single "," " "). apply subst_comma_concat.
  now apply (proj1 (forallb_forall _ _) H).
Qed.

End CsvMore.

(* ===================================================================== *)
(** ** The command line program and the analysis                          *)
(* ===================================================================== *)

Lemma stdout_fetching (trace : list event) :
  stdout (map Fetching trace) = fetch_prints trace.
Proof.
  induction trace as [|e t IH]; [reflexivity|].
  unfold stdout, fetch_prints in *. cbn [map flat_map]. rewrite IH.
  now destruct e.
Qed.

Lemma stdout_app (a b : list main_event) :
  stdout (a ++ b) = (stdout a ++ stdout b)%list.
Proof. apply flat_map_app. Qed.

Lemma files_written_fetching (trace : list event) :
  files_written (map Fetching trace) = [].
Proof. induction trace as [|e t IH]; [reflexivity | exact IH]. Qed.

Lemma files_written_app (a b : list main_event) :
  files_written (a ++ b) = (files_written a ++ files_written b)%list.
Proof. apply flat_map_app. Qed.

Lemma network_fetching (trace : list event) :
  network (map Fetching trace) = requested trace.
Proof.
  induction trace as [|e t IH]; [reflexivity|].
  unfold network, requested in *. cbn [map flat_map]. rewrite IH.
  now destruct e.
Qed.

Lemma network_app (a b : list main_event) :
  network (a ++ b) = (network a ++ network b)%list.
Proof. apply flat_map_app. Qed.

Section MainFacts.

Context {float datetime : Type}.
Variable py_float : string -> option float.
Variable strftime : datetime -> string.
Variable timegm : datetime -> Z.
Variable read_file : string -> option string.
Variable writable : string -> bool.
Variable dumps : value float -> string.

(** [main] up to the parse. *)
Lemma main_parsed (now : datetime)
      (requests_get : nat -> string -> get_outcome) (args : arguments) :
  main py_float strftime timegm now requests_get read_file writable dumps
       args
  = let trace := map Fetching (fst (fetch_of requests_get read_file args)) in
    match parsed_of py_float requests_get read_file args with
    | Raise e => (trace, Raise e)
    | Ok data =>
        let formatted :=
          dumps (build_output strftime timegm now data
                              (negb (truthy (from_file args)))) in
        let trace :=
          if negb (quiet args) then (trace ++ [Print formatted])%list
          else trace in
        match export args with
        | Some path =>
            if truthy (export args) then
              if writable path then
                ((trace ++
                  [WriteFile path formatted;
                   Print (PyStr.format "written to file: {}" [path])])%list,
                 Ok tt)
              else (trace, Raise OSError)
            else (trace, Ok tt)
        | None => (trace, Ok tt)
        end
    end.
Proof.
  unfold main, parsed_of, fetch_of.
  destruct (type args), (from_file args) as [path|];
    match goal with
    | |- context [fetch_source ?g ?r ?w ?u] =>
        destruct (fetch_source g r w u) as [trace source]
    end; reflexivity.
Qed.

(** The requests of [main] are those of its fetch. *)
Lemma main_network (now : datetime)
      (requests_get : nat -> string -> get_outcome) (args : arguments) :
  network (fst (main py_float strftime timegm now requests_get read_file
                     writable dumps args))
  = requested (fst (fetch_of requests_get read_file args)).
Proof.
  rewrite main_parsed. cbv zeta.
  destruct (parsed_of py_float requests_get read_file args) as [data|e];
    [|apply network_fetching].
  destruct (negb (quiet args)), (export args) as [p|]; cbn [truthy];
    try destruct (negb (PyStr.is_empty p)); try destruct (writable p);
    cbn [fst]; rewrite ?network_app, network_fetching;
    cbn [network flat_map]; rewrite ?app_nil_r; reflexivity.
Qed.

(** The fetch of a file does not look at the network. *)
Lemma fetch_of_local (requests_get : nat -> string -> get_outcome)
      (args : arguments) (path : string) :
  from_file args = Some path ->
  fetch_of requests_get read_file args
  = match read_file path with
    | Some source => ([EvOpen path], Ok (PyStr.split_on newline source))
    | None => ([EvOpen path], Raise OSError)
    end.
Proof. intros H. unfold fetch_of. now rewrite H. Qed.

(** The fetch of [main] prints its warning when it retries, and
    nothing else. *)
Lemma fetch_of_prints (requests_get : nat -> string -> get_outcome)
      (args : arguments) :
  fetch_prints (fst (fetch_of requests_get read_file args))
  = if retried requests_get args then [TLS_WARNING] else [].
Proof.
  unfold fetch_of, retried, fetch_source.
  destruct (from_file args) as [path|].
  - now destruct (read_file path).
  - destruct (requests_get 0 _) as [| |code text].
    + destruct (requests_get 1 _) as [| |code text]; try reflexivity.
      now destruct (negb (code =? 200)%Z).
    + reflexivity.
    + now destruct (negb (code =? 200)%Z).
Qed.

(** X16: when the fetch or the parse raises, [main] ends with that
    exception and its events are those of its fetch alone: it has
    written no file, and it has printed nothing but the warning of the
    fetcher, once, if the fetch retried after a certificate failure.
    No part of the output exists, on the screen or in the export
    file. *)
Theorem main_fails_without_output (now : datetime)
        (requests_get : nat -> string -> get_outcome) (args : arguments)
        (e : exn) :
  parsed_of py_float requests_get read_file args = Raise e ->
  let run := main py_float strftime timegm now requests_get read_file
                  writable dumps args in
  snd run = Raise e /\
  fst run = map Fetching (fst (fetch_of requests_get read_file args)) /\
  files_written (fst run) = [] /\
  stdout (fst run)
  = if retried requests_get args then [TLS_WARNING] else [].
Proof.
  intros H. cbv zeta. rewrite main_parsed. cbv zeta. rewrite H.
  cbn [fst snd]. repeat split.
  - apply files_written_fetching.
  - rewrite stdout_fetching. apply fetch_of_prints.
Qed.

(** X17: when the fetch and the parse succeed, the standard output of
    [main] is, in order: the warning of the fetcher if the fetch
    retried after a certificate failure; the dumped envelope unless
    [--quiet] is given; and, if [--export] names a file with a
    non-empty name that can be opened, the line
    [written to file: <name>].  [--quiet] silences neither the warning
    nor that line.  The file then written holds the same text as the
    one printed, and no other file is written.  [main] fails only when
    the export file cannot be opened.  The envelope is stamped unless
    [--from-file] has a non-empty name. *)
Theorem main_outputs (now : datetime)
        (requests_get : nat -> string -> get_outcome) (args : arguments)
        (data : list (value float)) :
  parsed_of py_float requests_get read_file args = Ok data ->
  let run := main py_float strftime timegm now requests_get read_file
                  writable dumps args in
  let text := dumps (build_output strftime timegm now data
                                  (negb (truthy (from_file args)))) in
  let warning := if retried requests_get args then [TLS_WARNING] else [] in
  let printed := if quiet args then [] else [text] in
  match export args with
  | Some path =>
      if PyStr.is_empty path then
        stdout (fst run) = (warning ++ printed)%list /\
        files_written (fst run) = [] /\ snd run = Ok tt
      else if writable path then
        stdout (fst run)
        = (warning ++ printed
           ++ [("written to file: " ++ path)%string])%list /\
        files_written (fst run) = [(path, text)] /\ snd run = Ok tt
      else
        stdout (fst run) = (warning ++ printed)%list /\
        files_written (fst run) = [] /\ snd run = Raise OSError
  | None =>
      stdout (fst run) = (warning ++ printed)%list /\
      files_written (fst run) = [] /\ snd run = Ok tt
  end.
Proof.
  intros H. cbv zeta. rewrite main_parsed. cbv zeta. rewrite H.
  rewrite <- (fetch_of_prints requests_get args).
  assert (Hfmt : forall path,
             PyStr.format "written to file: {}" [path]
             = "written to file: " ++ path).
  { intros path.
    change (PyStr.format "written to file: {}" [path])
      with ("written to file: " ++ (path ++ "")).
    now rewrite append_empty_r. }
  destruct (export args) as [path|]; cbn [truthy].
  - destruct (PyStr.is_empty path); cbn [negb].
    + destruct (quiet args); cbn [negb fst snd];
        rewrite ?stdout_app, ?files_written_app, stdout_fetching,
          files_written_fetching, ?app_nil_r, <- ?app_assoc;
          repeat split.
    + destruct (writable path).
      * rewrite Hfmt.
        destruct (quiet args); cbn [negb fst snd];
          rewrite ?stdout_app, ?files_written_app, stdout_fetching,
            files_written_fetching, ?app_nil_r, <- ?app_assoc;
          repeat split.
      * destruct (quiet args); cbn [negb fst snd];
          rewrite ?stdout_app, ?files_written_app, stdout_fetching,
            files_written_fetching, ?app_nil_r, <- ?app_assoc;
          repeat split.
  - destruct (quiet args); cbn [negb fst snd];
      rewrite ?stdout_app, ?files_written_app, stdout_fetching,
        files_written_fetching, ?app_nil_r, <- ?app_assoc;
          repeat split.
Qed.

(** X18: a run from a file with a non-empty name does not depend on the
    clock or on the network: its events and its result are the same for
    every clock reading and every behaviour of the network, and it
    sends no request. *)
Theorem local_run_reproducible (now now' : datetime)
        (requests_get requests_get' : nat -> string -> get_outcome)
        (args : arguments) (path : string) :
  from_file args = Some path -> path <> "" ->
  main py_float strftime timegm now requests_get read_file writable dumps
       args
  = main py_float strftime timegm now' requests_get' read_file writable
         dumps args /\
  network (fst (main py_float strftime timegm now requests_get read_file
                     writable dumps args)) = [].
Proof.
  intros Hfrom Hpath.
  assert (Hempty : PyStr.is_empty path = false)
    by (destruct path; [congruence | reflexivity]).
  split.
  - rewrite !main_parsed. unfold parsed_of.
    rewrite (fetch_of_local requests_get args path Hfrom),
      (fetch_of_local requests_get' args path Hfrom).
    rewrite Hfrom. cbn [truthy]. rewrite Hempty. reflexivity.
  - rewrite main_network, (fetch_of_local requests_get args path Hfrom).
    now destruct (read_file path).
Qed.

(** X19: a run without [--from-file] requests the catalogue URL of its
    [--type], and after a certificate failure the same URL with the
    scheme [http]; it sends no other request. *)
Theorem remote_run_requests (now : datetime)
        (requests_get : nat -> string -> get_outcome) (args : arguments) :
  from_file args = None ->
  let url := match type args with
             | ascii_source => ASCII_URL
             | csv_source => CSV_URL
             end in
  let sent := network (fst (main py_float strftime timegm now requests_get
                                 read_file writable dumps args)) in
  exists rest,
    url = "https" ++ rest /\
    sent = if match requests_get 0 url with
              | GetSSLError => true
              | _ => false
              end
           then [url; "http" ++ rest] else [url].
Proof.
  intros Hfrom. cbv zeta. rewrite main_network.
  unfold fetch_of. rewrite Hfrom.
  destruct (type args).
  - exists "://www.astro.keele.ac.uk/jkt/tepcat/allplanets-ascii.txt".
    split; [reflexivity|].
    destruct (requests_get 0 ASCII_URL) as [| |code text] eqn:E.
    + now rewrite (fetch_source_retry requests_get read_file _ E).
    + rewrite (fetch_source_no_retry requests_get read_file ASCII_URL);
        [reflexivity | congruence].
    + rewrite (fetch_source_no_retry requests_get read_file ASCII_URL);
        [reflexivity | congruence].
  - exists "://www.astro.keele.ac.uk/jkt/tepcat/allplanets-csv.csv".
    split; [reflexivity|].
    destruct (requests_get 0 CSV_URL) as [| |code text] eqn:E.
    + now rewrite (fetch_source_retry requests_get read_file _ E).
    + rewrite (fetch_source_no_retry requests_get read_file CSV_URL);
        [reflexivity | congruence].
    + rewrite (fetch_source_no_retry requests_get read_file CSV_URL);
        [reflexivity | congruence].
Qed.

(** X20: the list the three plots of the analysis draw, read off the
    envelope of a successful run, stamped or not, never misses a key:
    it holds the periods of the data lines as bare floats, one per data
    line, in the order of the lines. *)
Theorem analysis_reads_periods (now : datetime) (stamp skip : bool)
        (src : list string) (recs : list (value float)) :
  parse_ascii py_float src skip = Ok recs ->
  exists ps,
    Analyse.relevant (build_output strftime timegm now recs stamp)
    = Ok (map VFloat ps) /\
    Forall2 (fun line p =>
               exists Porb, getattr (PyStr.split line) "Porb" = Ok Porb /\
                            py_float Porb = Some p)
            (data_lines src) ps.
Proof.
  intros H. apply parse_ascii_loop_ok in H as (rows & -> & Hrows).
  cbn [app].
  assert (Hex : exists ps,
             Analyse.periods rows = Ok (map VFloat ps) /\
             Forall2 (fun line p =>
                        exists Porb,
                          getattr (PyStr.split line) "Porb" = Ok Porb /\
                          py_float Porb = Some p)
                     (data_lines src) ps).
  { induction Hrows as [|line r ls rs Hrow _ (ps & IH1 & IH2)].
    - exists []. split; [reflexivity | constructor].
    - destruct (parse_row_inv py_float skip line r Hrow)
        as (x & system & Porb & period & d_ref & r_ref & Hx & _ & HP & Hf
            & _ & _ & _ & Hperiod & _).
      destruct (Properties_ok _ _ Hx) as [-> _].
      exists (period :: ps). split.
      + cbn [Analyse.periods map]. unfold Analyse.subscript.
        destruct r as [| | |d|]; try discriminate Hperiod.
        cbn [getitem] in Hperiod. rewrite Hperiod. cbn [bind].
        now rewrite IH1.
      + constructor; eauto. }
  destruct Hex as (ps & Hps & Hall). exists ps. split; [|assumption].
  destruct stamp; exact Hps.
Qed.

End MainFacts.

(* ===================================================================== *)
(** ** The further properties on the sample data                          *)
(* ===================================================================== *)

Lemma parse_ascii_ignores_skipped_lines_witness :
  parse_ascii Sample.read_decimal Sample.source true
  = parse_ascii Sample.read_decimal [Sample.row; Sample.comment] true.
Proof.
  apply (parse_ascii_ignores_skipped_lines Sample.read_decimal true
           Sample.source [Sample.row; Sample.comment]).
  reflexivity.
Defined.

Lemma parse_ascii_exception_kinds_witness :
  exists before line after rows,
    [Sample.comment; Demo.bad_period_row] = (before ++ line :: after)%list /\
    data_line line = true /\
    parse_ascii Sample.read_decimal before true = Ok rows /\
    ((ValueError = TypeError /\ List.length (PyStr.split line) <> 43) \/
     (ValueError = ValueError /\ List.length (PyStr.split line) = 43 /\
      ~ numeric_on Sample.read_decimal (PyStr.split line)
                   (columns_read true))).
Proof.
  apply (parse_ascii_exception_kinds Sample.read_decimal true
           [Sample.comment; Demo.bad_period_row] ValueError).
  vm_compute. reflexivity.
Defined.

Lemma non_numeric_column_raises_witness :
  parse_ascii Sample.read_decimal
              ([Sample.comment; Sample.row] ++ Demo.bad_period_row :: [""])
              true
  = Raise ValueError.
Proof.
  apply (non_numeric_column_raises Sample.read_decimal true
           [Sample.comment; Sample.row] [""] Demo.bad_period_row
           [Sample.record] (PyStr.split Demo.bad_period_row)
           "Porb" "unknown").
  - vm_compute. reflexivity.
  - reflexivity.
  - vm_compute. reflexivity.
  - left. reflexivity.
  - vm_compute. reflexivity.
  - reflexivity.
Defined.

Lemma blank_line_raises_witness :
  parse_ascii Sample.read_decimal
              ([Sample.row] ++ Demo.cr_line :: [""]) false
  = Raise TypeError.
Proof.
  apply (blank_line_raises Sample.read_decimal false [Sample.row] [""]
           Demo.cr_line Demo.full_records).
  - vm_compute. reflexivity.
  - discriminate.
  - reflexivity.
Defined.

Lemma modes_agree_witness :
  exists bares,
    parse_ascii Sample.read_decimal Sample.source true = Ok bares /\
    Forall2 same_central_values Demo.full_records bares.
Proof.
  apply (modes_agree Sample.read_decimal Sample.source Demo.full_records).
  vm_compute. reflexivity.
Defined.

Lemma record_keys_fixed_witness :
  keys_of Sample.record
  = [ "system"; "period"; "eccentricity"; "semimajor_AU";
      "stellar_properties"; "planetary_properties"; "references" ] /\
  option_map keys_of (getitem Sample.record "stellar_properties")
  = Some [ "temp_k"; "metal_log"; "mass_sol"; "radius_sol";
           "gravity_log_cgs"; "density_sol" ] /\
  option_map keys_of (getitem Sample.record "planetary_properties")
  = Some [ "mass_jup"; "radius_jup"; "gravity"; "density_jup";
           "temp_eq_k" ] /\
  option_map keys_of (getitem Sample.record "references")
  = Some [ "human_url"; "discovery"; "recent" ].
Proof.
  apply (record_keys_fixed Sample.read_decimal Sample.source true
           [Sample.record] Sample.record).
  - vm_compute. reflexivity.
  - left. reflexivity.
Defined.

Lemma skip_mode_reads_central_columns_only_witness :
  parse_row Sample.read_decimal true Sample.row
  = parse_row Sample.read_decimal true Demo.no_margins_row.
Proof.
  apply (skip_mode_reads_central_columns_only Sample.read_decimal
           Sample.row Demo.no_margins_row
           (PyStr.split Sample.row) (PyStr.split Demo.no_margins_row)).
  - vm_compute. reflexivity.
  - vm_compute. reflexivity.
  - intros name Hin. cbv [read_columns central_columns measurement_fields
                          map snd app] in Hin. cbn [In] in Hin.
    repeat (destruct Hin as [<-|Hin]; [vm_compute; reflexivity|]).
    contradiction.
Defined.

Lemma csv_fields_round_trip_witness :
  PyStr.split (PyStr.replace (String.concat "," Sample.fields) "," " ")
  = Sample.fields /\
  PyStr.split (String.concat " " Sample.fields) = Sample.fields.
Proof.
  apply (csv_fields_round_trip Sample.fields).
  vm_compute. reflexivity.
Defined.

Lemma parse_csv_drops_first_line_witness :
  parse_csv Sample.read_decimal
            (map (String.concat ",") [Sample.fields; Sample.fields]) true
  = parse_ascii Sample.read_decimal
                (map (String.concat " ") (tl [Sample.fields; Sample.fields]))
                true.
Proof.
  apply (parse_csv_drops_first_line Sample.read_decimal
           [Sample.fields; Sample.fields] true).
  vm_compute. reflexivity.
Defined.

Lemma main_fails_without_output_witness :
  snd (main Sample.read_decimal Sample.render Sample.seconds Sample.now
            Demo.retry_not_found Demo.disk Demo.any_path Demo.dumps
            Demo.remote_run) = Raise (RuntimeError 404) /\
  fst (main Sample.read_decimal Sample.render Sample.seconds Sample.now
            Demo.retry_not_found Demo.disk Demo.any_path Demo.dumps
            Demo.remote_run)
  = map Fetching (fst (fetch_of Demo.retry_not_found Demo.disk
                                Demo.remote_run)) /\
  files_written
    (fst (main Sample.read_decimal Sample.render Sample.seconds Sample.now
               Demo.retry_not_found Demo.disk Demo.any_path Demo.dumps
               Demo.remote_run)) = [] /\
  stdout
    (fst (main Sample.read_decimal Sample.render Sample.seconds Sample.now
               Demo.retry_not_found Demo.disk Demo.any_path Demo.dumps
               Demo.remote_run)) = [TLS_WARNING].
Proof.
  apply (main_fails_without_output Sample.read_decimal Sample.render
           Sample.seconds Demo.disk Demo.any_path Demo.dumps Sample.now
           Demo.retry_not_found Demo.remote_run (RuntimeError 404)).
  reflexivity.
Defined.

Lemma main_outputs_witness :
  stdout
    (fst (main Sample.read_decimal Sample.render Sample.seconds Sample.now
               Demo.retry_online Demo.disk Demo.any_path Demo.dumps
               Demo.quiet_remote_run)) = [TLS_WARNING] /\
  files_written
    (fst (main Sample.read_decimal Sample.render Sample.seconds Sample.now
               Demo.retry_online Demo.disk Demo.any_path Demo.dumps
               Demo.quiet_remote_run)) = [] /\
  snd (main Sample.read_decimal Sample.render Sample.seconds Sample.now
            Demo.retry_online Demo.disk Demo.any_path Demo.dumps
            Demo.quiet_remote_run) = Ok tt.
Proof.
  apply (main_outputs Sample.read_decimal Sample.render Sample.seconds
           Demo.disk Demo.any_path Demo.dumps Sample.now Demo.retry_online
           Demo.quiet_remote_run [Sample.record]).
  vm_compute. reflexivity.
Defined.

Lemma local_run_reproducible_witness :
  main Sample.read_decimal Sample.render Sample.seconds Sample.now
       Demo.offline Demo.disk Demo.any_path Demo.dumps Demo.local_run
  = main Sample.read_decimal Sample.render Sample.seconds 0%Z
         Demo.online Demo.disk Demo.any_path Demo.dumps Demo.local_run /\
  network (fst (main Sample.read_decimal Sample.render Sample.seconds
                     Sample.now Demo.offline Demo.disk Demo.any_path
                     Demo.dumps Demo.local_run)) = [].
Proof.
  apply (local_run_reproducible Sample.read_decimal Sample.render
           Sample.seconds Demo.disk Demo.any_path Demo.dumps
           Sample.now 0%Z Demo.offline Demo.online Demo.local_run
           "tepcat.txt").
  - reflexivity.
  - discriminate.
Defined.

Lemma remote_run_requests_witness :
  exists rest,
    ASCII_URL = "https" ++ rest /\
    network (fst (main Sample.read_decimal Sample.render Sample.seconds
                       Sample.now Sample.tls_fails_once Demo.disk
                       Demo.any_path Demo.dumps Demo.remote_run))
    = [ASCII_URL; "http" ++ rest].
Proof.
  apply (remote_run_requests Sample.read_decimal Sample.render
           Sample.seconds Demo.disk Demo.any_path Demo.dumps Sample.now
           Sample.tls_fails_once Demo.remote_run).
  reflexivity.
Defined.

Lemma analysis_reads_periods_witness :
  exists ps,
    Analyse.relevant (build_output Sample.render Sample.seconds Sample.now
                                   [Sample.record] false)
    = Ok (map VFloat ps) /\
    Forall2 (fun line p =>
               exists Porb,
                 getattr (PyStr.split line) "Porb" = Ok Porb /\
                 Sample.read_decimal Porb = Some p)
            (data_lines Sample.source) ps.
Proof.
  apply (analysis_reads_periods Sample.read_decimal Sample.render
           Sample.seconds Sample.now false true Sample.source
           [Sample.record]).
  vm_compute. reflexivity.
Defined.

(** X21: a source without data line, be it empty or made of comment
    lines and empty lines, parses to the empty list of records without
    error, in both layouts: a CSV source may hold one more line, its
    first, whatever that line holds. *)
Theorem no_data_lines_no_records {float : Type}
        (py_float : string -> option float) (src : list string)
        (header : string) (skip : bool) :
  data_lines src = [] ->
  parse_ascii py_float src skip = Ok [] /\
  parse_csv py_float (header :: src) skip = Ok [].
Proof.
  intros H. split.
  - unfold parse_ascii. rewrite parse_ascii_loop_data_lines, H. reflexivity.
  - unfold parse_csv, parse_ascii. cbn [tl].
    rewrite parse_ascii_loop_data_lines.
    replace (data_lines (map (fun x => PyStr.replace x "," " ") src))
      with (@nil string); [reflexivity|].
    clear header. induction src as [|line src IH]; [reflexivity|].
    unfold data_lines in *. cbn [filter map] in *.
    destruct line as [|c line]; cbn [data_line] in *.
    + cbn. now apply IH.
    + destruct (Ascii.eqb_spec c "#") as [->|Hne]; cbn [negb] in H;
        [|discriminate].
      rewrite (replace_single "," " "). cbn. now apply IH.
Qed.

Lemma no_data_lines_no_records_witness :
  parse_ascii Sample.read_decimal [Sample.comment; ""; Sample.comment] false
  = Ok [] /\
  parse_csv Sample.read_decimal
            (Sample.row :: [Sample.comment; ""; Sample.comment]) false
  = Ok [].
Proof.
  apply (no_data_lines_no_records Sample.read_decimal
           [Sample.comment; ""; Sample.comment] Sample.row false).
  reflexivity.
Defined.

(* ===================================================================== *)
(** ** The two layouts                                                    *)
(* ===================================================================== *)








Section Layouts.

Context {float : Type} (py_float : string -> option float).




End Layouts.


(** The aligned row and the CSV row of the sample both give the records
    of the sample, with their error margins. *)
Example aligned_row_records :
  parse_ascii Sample.read_decimal [Sample.comment; Demo.aligned_row; ""]
              false
  = Ok Demo.full_records.
Proof. vm_compute. reflexivity. Qed.
